(** * chezmoi: the [add] command's hooks and the sorted-keys utility

    A shallow embedding of

    - package [chezmoimaps] ([Keys], [SortedKeys]), and
    - [internal/cmd/addcmd.go] ([defaultOnIgnoreFunc], [defaultPreAddFunc],
      [defaultReplaceFunc], [runAddCmd]),

    together with the properties the specification states about them. *)

From Stdlib Require Import ZArith List Bool Lia.
From stdpp Require Import base option list sorting relations strings pretty gmap.

Local Open Scope Z_scope.

(* ===================================================================== *)
(** ** Package [slices] and package [chezmoimaps]                         *)
(* ===================================================================== *)

(** A Go [map[K]V] has no iteration order of its own: each [range] loop
    visits the entries in an order the runtime picks.  A map value is
    therefore represented by the list of its entries in the order in which
    the runtime happens to visit them, and a well-formed map holds every key
    once. *)
Definition gomap (K V : Type) : Type := list (K * V).

Definition gomap_wf {K V : Type} (m : gomap K V) : Prop := NoDup (m.*1).

(** The set of keys of a map, as a predicate. *)
Definition has_key {K V : Type} (m : gomap K V) (k : K) : Prop := k ∈ m.*1.

Module slices.
Section Sort.
Context {K : Type} (R : relation K) `{!RelDecision R}.

(** [slices.Sort] of the Go standard library, which sorts a slice of an
    ordered type in ascending order; [R x y] is [x <= y].  The library sorts
    short slices by insertion, which is what is written here. *)
Fixpoint insert (x : K) (l : list K) : list K :=
  match l with
  | [] => [x]
  | y :: l' => if decide (R x y) then x :: y :: l' else y :: insert x l'
  end.

Fixpoint Sort (l : list K) : list K :=
  match l with
  | [] => []
  | x :: l' => insert x (Sort l')
  end.

End Sort.
End slices.

Module chezmoimaps.
Section Keys.
Context {K V : Type}.

(** [Keys]: [r := make([]K, 0, len(m)); for k := range m { r = append(r, k) }]. *)
Definition Keys (m : gomap K V) : list K :=
  foldl (λ r kv, r ++ [kv.1]) [] m.

Context (R : relation K) `{!RelDecision R}.

(** [SortedKeys]: [keys := Keys(m); slices.Sort(keys); return keys]. *)
Definition SortedKeys (m : gomap K V) : list K :=
  let keys := Keys m in
  slices.Sort R keys.

End Keys.
End chezmoimaps.

(* ===================================================================== *)
(** ** Package [io/fs]: file modes                                        *)
(* ===================================================================== *)

Module fs.

(** [type FileMode uint32]: the type bits sit at the top of the word. *)
Definition FileMode : Type := Z.

Definition ModeDir : FileMode := Z.shiftl 1 31.
Definition ModeSymlink : FileMode := Z.shiftl 1 27.
Definition ModeDevice : FileMode := Z.shiftl 1 26.
Definition ModeNamedPipe : FileMode := Z.shiftl 1 25.
Definition ModeSocket : FileMode := Z.shiftl 1 24.
Definition ModeCharDevice : FileMode := Z.shiftl 1 21.
Definition ModeIrregular : FileMode := Z.shiftl 1 19.

Definition ModeType : FileMode :=
  Z.lor ModeDir (Z.lor ModeSymlink (Z.lor ModeNamedPipe (Z.lor ModeSocket
    (Z.lor ModeDevice (Z.lor ModeCharDevice ModeIrregular))))).

(** [func (m FileMode) Type() FileMode { return m & ModeType }] *)
Definition Type_ (m : FileMode) : FileMode := Z.land m ModeType.

(** [fs.FileInfo], of which the hooks read [Mode()] only. *)
Record FileInfo : Type := { Name : string; Mode : FileMode }.

End fs.

(** The [error] values that travel through the hooks: [chezmoi.ExitCodeError],
    the sentinel [fs.SkipDir], and the failures of the collaborators (file
    system, secret detector, terminal), which are opaque to this package. *)
Inductive error : Type :=
| ExitCodeError (code : Z)
| SkipDir
| IOError (msg : string).

Global Instance error_eq_dec : EqDecision error.
Proof. solve_decision. Defined.

(** What a collaborator hands back: a value, or a failure. *)
Inductive reply (A : Type) : Type :=
| Got (a : A)
| Failed (msg : string).
Arguments Got {A} a.
Arguments Failed {A} msg.

Global Instance reply_eq_dec {A : Type} `{!EqDecision A} : EqDecision (reply A).
Proof. solve_decision. Defined.

(** ** A state monad with panics

    The hooks are methods on [*Config] that read and write its fields; a Go
    [panic] unwinds the call. *)
Inductive outcome (A : Type) : Type :=
| Returns (a : A)
| Panics (msg : string).
Arguments Returns {A} a.
Arguments Panics {A} msg.

Definition M (S A : Type) : Type := S → outcome A * S.

Global Instance M_ret {S : Type} : MRet (M S) :=
  λ A a s, (Returns a, s).

Global Instance M_bind {S : Type} : MBind (M S) :=
  λ A B k m s,
    match m s with
    | (Returns a, s') => k a s'
    | (Panics msg, s') => (Panics msg, s')
    end.

Definition panic {S A : Type} (msg : string) : M S A := λ s, (Panics msg, s).

Definition get {S : Type} : M S S := λ s, (Returns s, s).

Definition modify {S : Type} (f : S → S) : M S unit := λ s, (Returns (), f s).

(** [for _, x := range xs { body(x) }] for a body that returns nothing. *)
Fixpoint forEach {S A : Type} (xs : list A) (body : A → M S unit) : M S unit :=
  match xs with
  | [] => mret ()
  | x :: xs' => body x;; forEach xs' body
  end.

(* ===================================================================== *)
(** ** Package [chezmoi]: paths, entries, the capture loop                *)
(* ===================================================================== *)

Module chezmoi.

Definition RelPath : Type := string.
Definition AbsPath : Type := string.

(** Modelled from the spec: the attribute bundle [Attr] of section 3; the
    Go struct is declared in another file of the package. *)
Record FileAttr : Type := {
  Encrypted : bool;
  Private : bool;
  ReadOnly : bool;
  Executable : bool;
  Template : bool;
  Exact : bool;
  Create : bool
}.

(** Modelled from the spec: what every entry variant carries (section 3):
    its target path, its attributes and its origin in the source tree. *)
Record EntryData : Type := {
  TargetPath : RelPath;
  Attr : FileAttr;
  Origin : string
}.

(** Modelled from the spec: the interface [SourceStateEntry] and the types
    that implement it (section 3: File, Dir, Symlink, Script, Remove). *)
Inductive SourceStateEntry : Type :=
| SourceStateFile (d : EntryData)
| SourceStateDir (d : EntryData)
| SourceStateSymlink (d : EntryData)
| SourceStateScript (d : EntryData)
| SourceStateRemove (d : EntryData).

(** The comma-ok type assertion of an entry to a pointer to
    [chezmoi.SourceStateFile]. *)
Definition asSourceStateFile (e : SourceStateEntry) : option EntryData :=
  match e with
  | SourceStateFile d => Some d
  | _ => None
  end.

Definition entryData (e : SourceStateEntry) : EntryData :=
  match e with
  | SourceStateFile d | SourceStateDir d | SourceStateSymlink d
  | SourceStateScript d | SourceStateRemove d => d
  end.

(** [SourceState]: target path to entry, one entry per path. *)
Abbreviation SourceState := (gmap RelPath SourceStateEntry).

(** Modelled from the spec: the entry-type filter of section 6. *)
Inductive EntryTypeTag : Type :=
| TagFile | TagDir | TagSymlink | TagScript | TagRemove | TagExternal.

Global Instance EntryTypeTag_eq_dec : EqDecision EntryTypeTag.
Proof. solve_decision. Defined.

Record EntryTypeFilter : Type := {
  Include : list EntryTypeTag;
  Exclude : list EntryTypeTag
}.

(** Modelled from the spec: "an entry is included iff (Include empty OR
    type in Include) AND type not in Exclude". *)
Definition IncludeEntryType (f : EntryTypeFilter) (t : EntryTypeTag) : bool :=
  (bool_decide (Include f = []) || bool_decide (t ∈ Include f))
  && negb (bool_decide (t ∈ Exclude f)).

(** [chezmoi.Mode]: whether files are kept as copies or as symlinks. *)
Inductive Mode : Type := ModeFile | ModeSymlink.

Global Instance Mode_eq_dec : EqDecision Mode.
Proof. solve_decision. Defined.

(** Modelled from the spec: the three decisions a hook can hand to the
    capture loop (section 4.3), and how the loop reads a hook's [error]:
    [nil] is Proceed, [fs.SkipDir] is Skip, anything else is Abort. *)
Inductive Decision : Type :=
| Proceed
| Skip
| Abort (err : error).

Definition decisionOf (r : option error) : Decision :=
  match r with
  | None => Proceed
  | Some SkipDir => Skip
  | Some err => Abort err
  end.

(** The functions of package [chezmoi] that [addcmd.go] and the capture loop
    call and that are taken as given. *)
Class Externals : Type := {
  (** [func (p AbsPath) Join(relPaths ...RelPath) AbsPath] *)
  Join : AbsPath → RelPath → AbsPath;
  (** the target path of a destination path, below the destination root *)
  TrimDirPrefix : AbsPath → RelPath;
  (** what step 4 of the capture algorithm builds for an observation, given
      the entry already at that target path, or why it cannot *)
  newSourceStateEntry :
    AbsPath → fs.FileInfo → option SourceStateEntry → reply SourceStateEntry
}.

Module AddOptions.
(** [chezmoi.AddOptions], with the fields [runAddCmd] sets; the hooks are
    closures over a state of type [S]. *)
Record t (S : Type) : Type := {
  AutoTemplate : bool;
  Create : bool;
  Encrypt : bool;
  EncryptedSuffix : string;
  Exact : bool;
  Filter : EntryTypeFilter;
  OnIgnoreFunc : RelPath → M S unit;
  PreAddFunc : RelPath → fs.FileInfo → M S (option error);
  ProtectedAbsPaths : list AbsPath;
  ReplaceFunc : RelPath → SourceStateEntry → SourceStateEntry → M S (option error);
  Template : bool;
  TemplateSymlinks : bool
}.
Arguments AutoTemplate {S}.
Arguments Create {S}.
Arguments Encrypt {S}.
Arguments EncryptedSuffix {S}.
Arguments Exact {S}.
Arguments Filter {S}.
Arguments OnIgnoreFunc {S}.
Arguments PreAddFunc {S}.
Arguments ProtectedAbsPaths {S}.
Arguments ReplaceFunc {S}.
Arguments Template {S}.
Arguments TemplateSymlinks {S}.
End AddOptions.

Section Add.
Context `{!Externals} {S : Type}.

(** Modelled from the spec: the tag under which the filter sees a
    destination observation, read off the type bits of its mode; [None] for
    the objects the model cannot represent (devices, sockets, pipes). *)
Definition entryTypeOf (info : fs.FileInfo) : option EntryTypeTag :=
  let ty := fs.Type_ (fs.Mode info) in
  if bool_decide (ty = 0) then Some TagFile
  else if bool_decide (ty = fs.ModeDir) then Some TagDir
  else if bool_decide (ty = fs.ModeSymlink) then Some TagSymlink
  else None.

(** Modelled from the spec: step 1 of section 4.4, "RelPath resolves to a
    ProtectedPath or its descendant". *)
Definition isProtected (protected : list AbsPath) (p : AbsPath) : bool :=
  existsb (λ q, bool_decide (p = q) || String.prefix (q +:+ "/") p) protected.

(** Modelled from the spec: step 5 of section 4.4, the new entry "drops
    Encrypted/Private/Template" of the old one. *)
Definition dropsAttr (new old : SourceStateEntry) : bool :=
  let n := Attr (entryData new) in
  let o := Attr (entryData old) in
  (Encrypted o && negb (Encrypted n))
  || (Private o && negb (Private n))
  || (Template o && negb (Template n)).

(** Modelled from the spec: the method [SourceState.Add] of package
    [chezmoi], which [runAddCmd] calls and whose source is not at hand.  This
    is one round of the capture algorithm of section 4.4; the result is the
    error that stops the batch, if any, and the source state after this
    observation. *)
Definition addOne (options : AddOptions.t S) (s : SourceState)
    (destAbsPath : AbsPath) (info : fs.FileInfo)
    : M S (option error * SourceState) :=
  let targetRelPath := TrimDirPrefix destAbsPath in
  (* 1. protected paths are reported and skipped *)
  if isProtected (AddOptions.ProtectedAbsPaths options) destAbsPath then
    AddOptions.OnIgnoreFunc options targetRelPath;; mret (None, s)
  else
  match entryTypeOf info with
  | None => mret (Some (IOError "unsupported entry type"), s)
  | Some ty =>
    (* 2. the filter *)
    if negb (IncludeEntryType (AddOptions.Filter options) ty) then
      AddOptions.OnIgnoreFunc options targetRelPath;; mret (None, s)
    else
    (* 3. the entry already at this target path *)
    let old := s !! targetRelPath in
    (* 4. regular files go through the pre-capture hook *)
    pre ← (if bool_decide (ty = TagFile)
           then AddOptions.PreAddFunc options targetRelPath info
           else mret None);
    match decisionOf pre with
    | Skip => mret (None, s)
    | Abort err => mret (Some err, s)
    | Proceed =>
      match newSourceStateEntry destAbsPath info old with
      | Failed msg => mret (Some (IOError msg), s)
      | Got new =>
        (* 5. a replacement that drops an attribute goes through the hook *)
        rep ← (match old with
               | Some o =>
                 if dropsAttr new o
                 then AddOptions.ReplaceFunc options targetRelPath new o
                 else mret None
               | None => mret None
               end);
        match decisionOf rep with
        | Skip => mret (None, s)
        | Abort err => mret (Some err, s)
        | Proceed =>
          (* 6. write the entry *)
          mret (None, <[targetRelPath := new]> s)
        end
      end
    end
  end.

(** Modelled from the spec: the batch, one observation after the other; an
    error stops it and what was written stays written. *)
Fixpoint addAll (options : AddOptions.t S) (s : SourceState)
    (observations : list (AbsPath * fs.FileInfo))
    : M S (option error * SourceState) :=
  match observations with
  | [] => mret (None, s)
  | (destAbsPath, info) :: rest =>
    r ← addOne options s destAbsPath info;
    match r.1 with
    | Some err => mret (Some err, r.2)
    | None => addAll options r.2 rest
    end
  end.

(** Modelled from the spec: the observations of a batch are taken in the
    lexical order of their paths (sections 3 and 4.4), whatever order the map
    of observations is walked in. *)
Definition observations (destAbsPathInfos : gomap AbsPath fs.FileInfo)
    : list (AbsPath * fs.FileInfo) :=
  omap (λ p, (p,.) <$> (list_to_map destAbsPathInfos : gmap AbsPath fs.FileInfo) !! p)
       (chezmoimaps.SortedKeys String.le destAbsPathInfos).

(** Modelled from the spec: [Capture], section 4.4, which the code calls
    [SourceState.Add]. *)
Definition Add (s : SourceState) (destAbsPathInfos : gomap AbsPath fs.FileInfo)
    (options : AddOptions.t S) : M S (option error * SourceState) :=
  addAll options s (observations destAbsPathInfos).

End Add.

End chezmoi.

(* ===================================================================== *)
(** ** Package [cmd]: the [add] command                                   *)
(* ===================================================================== *)

Module cmd.
Import chezmoi.

(** Modelled from the spec: the policy severity of the secret scan
    (section 4.3: scanning off, "warn", "error"); the Go type [severity] and
    its constants are declared in another file of the package. *)
Inductive severity : Type :=
| severityIgnore
| severityWarning
| severityError.

Global Instance severity_eq_dec : EqDecision severity.
Proof. solve_decision. Defined.

(** [type addCmdConfig struct] *)
Record addCmdConfig : Type := {
  Encrypt : bool;
  Secrets : severity;
  TemplateSymlinks : bool;
  autoTemplate : bool;
  create : bool;
  exact : bool;
  filter : EntryTypeFilter;
  follow : bool;
  prompt : bool;
  quiet : bool;
  recursive : bool;
  template : bool
}.

(** A finding of the secret detector, of which the hook prints the line and
    the description. *)
Record Finding : Type := {
  StartLine : Z;
  Description : string
}.

(** The detector is opaque: [DetectBytes] maps content to findings. *)
Definition Detector : Type := string → list Finding.

(** What the hooks do to the world outside [Config], in order. *)
Inductive event : Type :=
| EvReadFile (absPath : AbsPath)
| EvDetectBytes (content : string)
| EvErrorf (msg : string)
| EvPromptChoice (prompt : string) (choices : list string).

(** [type Config struct], cut down to what [addcmd.go] touches, together with
    the collaborators it reaches through the receiver [c]: the destination
    file system, the secret detector, the terminal (the replies the user is
    going to give, oldest first) and a log of what was done. *)
Record Config : Type := {
  Add : addCmdConfig;
  force : bool;
  Mode : chezmoi.Mode;
  DestDirAbsPath : AbsPath;
  SourceDirAbsPath : AbsPath;
  CacheDirAbsPath : AbsPath;
  WorkingTreeAbsPath : AbsPath;
  sourceDirAbsPath : AbsPath;
  encryptedSuffix : string;
  destSystem : AbsPath → reply string;
  gitleaksDetector : reply Detector;
  replies : list (reply string);
  trace : list event
}.

Definition set_prompt (b : bool) (c : Config) : Config :=
  let a := Add c in
  {| Add := {| Encrypt := Encrypt a; Secrets := Secrets a;
               TemplateSymlinks := TemplateSymlinks a;
               autoTemplate := autoTemplate a; create := create a;
               exact := exact a; filter := filter a; follow := follow a;
               prompt := b; quiet := quiet a; recursive := recursive a;
               template := template a |};
     force := force c; Mode := Mode c;
     DestDirAbsPath := DestDirAbsPath c; SourceDirAbsPath := SourceDirAbsPath c;
     CacheDirAbsPath := CacheDirAbsPath c;
     WorkingTreeAbsPath := WorkingTreeAbsPath c;
     sourceDirAbsPath := sourceDirAbsPath c;
     encryptedSuffix := encryptedSuffix c;
     destSystem := destSystem c; gitleaksDetector := gitleaksDetector c;
     replies := replies c; trace := trace c |}.

Definition set_force (b : bool) (c : Config) : Config :=
  {| Add := Add c; force := b; Mode := Mode c;
     DestDirAbsPath := DestDirAbsPath c; SourceDirAbsPath := SourceDirAbsPath c;
     CacheDirAbsPath := CacheDirAbsPath c;
     WorkingTreeAbsPath := WorkingTreeAbsPath c;
     sourceDirAbsPath := sourceDirAbsPath c;
     encryptedSuffix := encryptedSuffix c;
     destSystem := destSystem c; gitleaksDetector := gitleaksDetector c;
     replies := replies c; trace := trace c |}.

Definition set_replies (rs : list (reply string)) (c : Config) : Config :=
  {| Add := Add c; force := force c; Mode := Mode c;
     DestDirAbsPath := DestDirAbsPath c; SourceDirAbsPath := SourceDirAbsPath c;
     CacheDirAbsPath := CacheDirAbsPath c;
     WorkingTreeAbsPath := WorkingTreeAbsPath c;
     sourceDirAbsPath := sourceDirAbsPath c;
     encryptedSuffix := encryptedSuffix c;
     destSystem := destSystem c; gitleaksDetector := gitleaksDetector c;
     replies := rs; trace := trace c |}.

Definition set_trace (t : list event) (c : Config) : Config :=
  {| Add := Add c; force := force c; Mode := Mode c;
     DestDirAbsPath := DestDirAbsPath c; SourceDirAbsPath := SourceDirAbsPath c;
     CacheDirAbsPath := CacheDirAbsPath c;
     WorkingTreeAbsPath := WorkingTreeAbsPath c;
     sourceDirAbsPath := sourceDirAbsPath c;
     encryptedSuffix := encryptedSuffix c;
     destSystem := destSystem c; gitleaksDetector := gitleaksDetector c;
     replies := replies c; trace := t |}.

Definition set_world (fsys : AbsPath → reply string) (d : reply Detector)
    (c : Config) : Config :=
  {| Add := Add c; force := force c; Mode := Mode c;
     DestDirAbsPath := DestDirAbsPath c; SourceDirAbsPath := SourceDirAbsPath c;
     CacheDirAbsPath := CacheDirAbsPath c;
     WorkingTreeAbsPath := WorkingTreeAbsPath c;
     sourceDirAbsPath := sourceDirAbsPath c;
     encryptedSuffix := encryptedSuffix c;
     destSystem := fsys; gitleaksDetector := d;
     replies := replies c; trace := trace c |}.

(** What a trace shows: the prompts put to the user, the messages written to
    the error stream, the files read, the contents handed to the detector. *)
Definition prompts (t : list event) : list string :=
  omap (λ e, match e with EvPromptChoice p _ => Some p | _ => None end) t.

Definition messages (t : list event) : list string :=
  omap (λ e, match e with EvErrorf m => Some m | _ => None end) t.

Definition reads (t : list event) : list AbsPath :=
  omap (λ e, match e with EvReadFile p => Some p | _ => None end) t.

Definition scans (t : list event) : list string :=
  omap (λ e, match e with EvDetectBytes b => Some b | _ => None end) t.

(** Running [m] from [c] takes exactly the replies [l] from the user, and
    running [m] from [c] puts a prompt to which the user answers [a]. *)
Definition consumes {A : Type} (m : M Config A) (c : Config)
    (l : list (reply string)) : Prop :=
  replies c = l ++ replies (m c).2.

Definition answered {A : Type} (m : M Config A) (c : Config)
    (a : reply string) : Prop :=
  consumes m c [a].

(** The section 7 name of the failure of the secret scan under the strict
    policy; the code returns [chezmoi.ExitCodeError(1)]. *)
Definition PolicyViolationError : error := ExitCodeError 1.

(** What either hook returns for the user's reply. *)
Definition choiceResult (a : reply string) : outcome (option error) :=
  match a with
  | Failed msg => Returns (Some (IOError msg))
  | Got choice =>
    if bool_decide (choice = "all") then Returns None
    else if bool_decide (choice = "no") then Returns (Some SkipDir)
    else if bool_decide (choice = "quit") then Returns (Some (ExitCodeError 0))
    else if bool_decide (choice = "yes") then Returns None
    else Panics (choice +:+ ": unexpected choice")
  end.

Definition emit (e : event) : M Config unit :=
  modify (λ c, set_trace (trace c ++ [e]) c).

(** [c.errorf(format, args...)] writes the formatted message to the error
    stream. *)
Definition errorf (msg : string) : M Config unit := emit (EvErrorf msg).

(** [c.destSystem.ReadFile(absPath)] *)
Definition ReadFile (absPath : AbsPath) : M Config (reply string) :=
  emit (EvReadFile absPath);;
  c ← get;
  mret (destSystem c absPath).

(** [c.getGitleaksDetector()] *)
Definition getGitleaksDetector : M Config (reply Detector) :=
  c ← get;
  mret (gitleaksDetector c).

(** [gitleaksDetector.DetectBytes(content)] *)
Definition DetectBytes (d : Detector) (content : string) : M Config (list Finding) :=
  emit (EvDetectBytes content);;
  mret (d content).

(** [c.promptChoice(prompt, choices)]: shows the prompt and hands back the
    user's next reply; a terminal with nothing more to read fails. *)
Definition promptChoice (prompt : string) (choices : list string)
    : M Config (reply string) :=
  emit (EvPromptChoice prompt choices);;
  c ← get;
  match replies c with
  | [] => mret (Failed "EOF")
  | r :: rs => modify (set_replies rs);; mret r
  end.

(** Modelled from the spec: the choices of the interactive contract of
    section 4.3, a constant of the package declared in another file. *)
Definition choicesYesNoAllQuit : list string := ["yes"; "no"; "all"; "quit"].

(** Go's [int] is 64 bits wide here; [x + 1] wraps around. *)
Definition int_wrap (z : Z) : Z := (z + 2 ^ 63) `mod` 2 ^ 64 - 2 ^ 63.

(** The line feed that ends a message. *)
Definition nl : string := String (Ascii.ascii_of_nat 10) EmptyString.

(** [fmt.Sprintf("%s:%d: %s\n", absPath, finding.StartLine+1,
    finding.Description)], the message printed for a finding. *)
Definition report (absPath : AbsPath) (finding : Finding) : string :=
  absPath +:+ ":" +:+ pretty (int_wrap (StartLine finding + 1))
  +:+ ": " +:+ Description finding +:+ nl.

(** The functions of package [cmd] that this file calls and does not
    define. *)
Class Externals : Type := {
  (** [englishListWithNoun(ss, singular, plural)] *)
  englishListWithNoun : list string → string → string → string;
  (** [c.destAbsPathInfos(sourceState, args, options)], the options being
      [follow] and [recursive] *)
  destAbsPathInfos :
    Config → SourceState → list string → bool → bool →
    reply (gomap AbsPath fs.FileInfo);
  (** [c.persistentStateFile()] *)
  persistentStateFile : Config → reply AbsPath;
  (** [c.getConfigFileAbsPath()] *)
  getConfigFileAbsPath : Config → AbsPath
}.

Section Hooks.
Context `{!chezmoi.Externals, !Externals}.

(** [func (c *Config) defaultOnIgnoreFunc(targetRelPath chezmoi.RelPath)] *)
Definition defaultOnIgnoreFunc (targetRelPath : RelPath) : M Config unit :=
  c ← get;
  if negb (quiet (Add c)) then
    errorf ("warning: ignoring " +:+ targetRelPath +:+ nl)
  else mret ().

(** The condition [c.Add.Secrets != severityIgnore &&
    fileInfo.Mode().Type() == 0 && !c.Add.Encrypt] under which
    [defaultPreAddFunc] scans. *)
Definition scansContent (c : Config) (fileInfo : fs.FileInfo) : bool :=
  negb (bool_decide (Secrets (Add c) = severityIgnore))
  && bool_decide (fs.Type_ (fs.Mode fileInfo) = 0)
  && negb (Encrypt (Add c)).

(** The condition [!c.force && c.Add.Secrets == severityError &&
    len(findings) > 0] under which the scan ends in exit code 1. *)
Definition violatesPolicy (c : Config) (findings : list Finding) : bool :=
  negb (force c)
  && bool_decide (Secrets (Add c) = severityError)
  && bool_decide (0 < length findings)%nat.

(** The first block of [defaultPreAddFunc] (the [if] that scans unencrypted
    files for secrets): it yields the error of one of its three [return]s, or
    [None] when control leaves the block at its end. *)
Definition scanForSecrets (targetRelPath : RelPath) (fileInfo : fs.FileInfo)
    : M Config (option error) :=
  c ← get;
  if scansContent c fileInfo then
    let absPath := Join (DestDirAbsPath c) targetRelPath in
    content ← ReadFile absPath;
    match content with
    | Failed msg => mret (Some (IOError msg))
    | Got content =>
      detector ← getGitleaksDetector;
      match detector with
      | Failed msg => mret (Some (IOError msg))
      | Got detector =>
        findings ← DetectBytes detector content;
        forEach findings (λ finding, errorf (report absPath finding));;
        c ← get;
        if violatesPolicy c findings then mret (Some (ExitCodeError 1))
        else mret None
      end
    end
  else mret None.

(** The rest of [defaultPreAddFunc], from [if !c.Add.prompt] on.  Every case
    of the [switch] inside the [for] returns or panics, so the loop body runs
    once. *)
Definition confirmAdd (targetRelPath : RelPath) : M Config (option error) :=
  c ← get;
  if negb (prompt (Add c)) then mret None
  else
    let prompt := "add " +:+ Join (SourceDirAbsPath c) targetRelPath in
    answer ← promptChoice prompt choicesYesNoAllQuit;
    match answer with
    | Failed msg => mret (Some (IOError msg))
    | Got choice =>
      if bool_decide (choice = "all") then
        modify (set_prompt false);; mret None
      else if bool_decide (choice = "no") then mret (Some SkipDir)
      else if bool_decide (choice = "quit") then mret (Some (ExitCodeError 0))
      else if bool_decide (choice = "yes") then mret None
      else panic (choice +:+ ": unexpected choice")
    end.

(** [func (c *Config) defaultPreAddFunc(targetRelPath, fileInfo) error] *)
Definition defaultPreAddFunc (targetRelPath : RelPath) (fileInfo : fs.FileInfo)
    : M Config (option error) :=
  scan ← scanForSecrets targetRelPath fileInfo;
  match scan with
  | Some err => mret (Some err)
  | None => confirmAdd targetRelPath
  end.

(** The attributes that adding [newFile] over [oldFile] would remove. *)
Definition removedAttributes (newFile oldFile : EntryData) : list string :=
  (if negb (Encrypted (Attr newFile)) && Encrypted (Attr oldFile)
   then ["encrypted"] else [])
  ++ (if negb (Private (Attr newFile)) && Private (Attr oldFile)
      then ["private"] else [])
  ++ (if negb (Template (Attr newFile)) && Template (Attr oldFile)
      then ["template"] else []).

(** [func (c *Config) defaultReplaceFunc(targetRelPath, newSourceStateEntry,
    oldSourceStateEntry) error] *)
Definition defaultReplaceFunc (targetRelPath : RelPath)
    (newSourceStateEntry oldSourceStateEntry : SourceStateEntry)
    : M Config (option error) :=
  c ← get;
  if force c then mret None
  else
    match asSourceStateFile newSourceStateEntry,
          asSourceStateFile oldSourceStateEntry with
    | Some newFile, Some oldFile =>
      let removedAttributes := removedAttributes newFile oldFile in
      if bool_decide (length removedAttributes = 0%nat) then mret None
      else
        let removedAttributesStr :=
          englishListWithNoun removedAttributes "attribute" "" in
        let prompt :=
          "adding " +:+ targetRelPath +:+ " would remove "
          +:+ removedAttributesStr +:+ ", continue" in
        answer ← promptChoice prompt choicesYesNoAllQuit;
        match answer with
        | Failed msg => mret (Some (IOError msg))
        | Got choice =>
          if bool_decide (choice = "all") then
            modify (set_force true);; mret None
          else if bool_decide (choice = "no") then mret (Some SkipDir)
          else if bool_decide (choice = "quit") then mret (Some (ExitCodeError 0))
          else if bool_decide (choice = "yes") then mret None
          else panic (choice +:+ ": unexpected choice")
        end
    | _, _ => mret None
    end.

(** The [&chezmoi.AddOptions{...}] literal of [runAddCmd]. *)
Definition addOptions (c : Config) (persistentStateFileAbsPath : AbsPath)
    : AddOptions.t Config :=
  {| AddOptions.AutoTemplate := autoTemplate (Add c);
     AddOptions.Create := create (Add c);
     AddOptions.Encrypt := Encrypt (Add c);
     AddOptions.EncryptedSuffix := encryptedSuffix c;
     AddOptions.Exact := exact (Add c);
     AddOptions.Filter := filter (Add c);
     AddOptions.OnIgnoreFunc := defaultOnIgnoreFunc;
     AddOptions.PreAddFunc := defaultPreAddFunc;
     AddOptions.ProtectedAbsPaths :=
       [CacheDirAbsPath c; WorkingTreeAbsPath c; getConfigFileAbsPath c;
        persistentStateFileAbsPath; sourceDirAbsPath c];
     AddOptions.ReplaceFunc := defaultReplaceFunc;
     AddOptions.Template := template (Add c);
     AddOptions.TemplateSymlinks := TemplateSymlinks (Add c) |}.

(** [func (c *Config) runAddCmd(cmd, args, sourceState) error].  The source
    and destination systems and the persistent state that the code hands to
    [Add] are folded into the source state and into [Config]. *)
Definition runAddCmd (args : list string) (sourceState : SourceState)
    : M Config (option error * SourceState) :=
  c ← get;
  match destAbsPathInfos c sourceState args
          (bool_decide (Mode c = ModeSymlink) || follow (Add c))
          (recursive (Add c)) with
  | Failed msg => mret (Some (IOError msg), sourceState)
  | Got destAbsPathInfos =>
    match persistentStateFile c with
    | Failed msg => mret (Some (IOError msg), sourceState)
    | Got persistentStateFileAbsPath =>
      chezmoi.Add sourceState destAbsPathInfos
        (addOptions c persistentStateFileAbsPath)
    end
  end.

(** Modelled from the spec: the caller of [runAddCmd] that turns its error
    into the status the process exits with, whose source is not at hand
    (sections 5 and 7): a run that ends without error, or with the exit-code
    signal, is reported with that code; any other error is a failure. *)
Definition exitStatus (r : option error) : Z :=
  match r with
  | None => 0
  | Some (ExitCodeError code) => code
  | Some _ => 1
  end.

(** The prompt of [defaultPreAddFunc], as it is logged. *)
Definition addPrompt (c : Config) (p : RelPath) : event :=
  EvPromptChoice ("add " +:+ Join (SourceDirAbsPath c) p) choicesYesNoAllQuit.

(** The prompt of [defaultReplaceFunc], as it is logged. *)
Definition replacePrompt (p : RelPath) (newFile oldFile : EntryData) : event :=
  EvPromptChoice
    ("adding " +:+ p +:+ " would remove "
     +:+ englishListWithNoun (removedAttributes newFile oldFile) "attribute" ""
     +:+ ", continue")
    choicesYesNoAllQuit.

(** A hook takes no reply, or takes the first one and returns what
    [choiceResult] makes of it. *)
Definition hooklike (m : M Config (option error)) : Prop :=
  ∀ c, replies (m c).2 = replies c
       ∨ ∃ a, replies c = a :: replies (m c).2 ∧ (m c).1 = choiceResult a.

(** What one round of the loop takes from the user: the replies [l], at
    most one for each hook.  A [quit] among them ends the round in exit code
    0, and a round whose last reply is [no] writes nothing and reports
    nothing. *)
Definition round (s : SourceState) (c : Config)
    (r : outcome (option error * SourceState) * Config) : Prop :=
  ∃ l, replies c = l ++ replies r.2
       ∧ (Got "quit" ∈ l → r.1 = Returns (Some (ExitCodeError 0), s))
       ∧ (last l = Some (Got "no") → r.1 = Returns (None, s)).

(** One step of a run of [add], seen from [Config]: a call of one of the three
    hooks, or anything else the run does.  The fields of [addCmdConfig] and
    [force] are unexported fields of package [cmd], out of the reach of
    package [chezmoi], which runs the loop: between two calls of a hook the
    world may change, these fields do not. *)
Inductive step : Config → Config → Prop :=
| step_OnIgnore p c : step c (defaultOnIgnoreFunc p c).2
| step_PreAdd p fileInfo c : step c (defaultPreAddFunc p fileInfo c).2
| step_Replace p new old c : step c (defaultReplaceFunc p new old c).2
| step_other c c' : Add c' = Add c → force c' = force c → step c c'.

(** What follows in the same run. *)
Definition later : Config → Config → Prop := rtc step.

End Hooks.

End cmd.

(* ===================================================================== *)
(** ** A sample run                                                       *)
(* ===================================================================== *)

(** A home directory with a file that holds a secret, and a source state
    that already keeps that file as a private template. *)
Module Sample.
Import chezmoi cmd.

Definition noAttr : FileAttr :=
  {| Encrypted := false; Private := false; ReadOnly := false;
     Executable := false; Template := false; Exact := false; Create := false |}.

Definition privateTemplate : FileAttr :=
  {| Encrypted := false; Private := true; ReadOnly := false;
     Executable := false; Template := true; Exact := false; Create := false |}.

Definition entry (p : RelPath) (a : FileAttr) : SourceStateEntry :=
  SourceStateFile {| TargetPath := p; Attr := a; Origin := p |}.

(** The target path of [/home/x] is [x]. *)
Definition trim (a : AbsPath) : RelPath :=
  String.substring 6 (String.length a - 6) a.

Definition paths : chezmoi.Externals :=
  {| Join := λ a r, a +:+ "/" +:+ r;
     TrimDirPrefix := trim;
     newSourceStateEntry := λ a _ _, Got (entry (trim a) noAttr) |}.

Definition regular (name : string) : fs.FileInfo :=
  {| fs.Name := name; fs.Mode := 420 |}.

Definition helpers : cmd.Externals :=
  {| englishListWithNoun := λ ss singular _, String.concat ", " ss +:+ " " +:+ singular;
     destAbsPathInfos := λ _ _ args _ _, Got ((λ a, (a, regular (trim a))) <$> args);
     persistentStateFile := λ _, Got "/cfg/chezmoistate.boltdb";
     getConfigFileAbsPath := λ _, "/cfg/chezmoi.toml" |}.

Definition add (sev : severity) (encrypt ask silent : bool) : addCmdConfig :=
  {| Encrypt := encrypt; Secrets := sev; TemplateSymlinks := false;
     autoTemplate := false; create := false; exact := false;
     filter := {| Include := []; Exclude := [] |}; follow := false;
     prompt := ask; quiet := silent; recursive := false; template := false |}.

Definition finding : Finding :=
  {| StartLine := 0; Description := "private key" |}.

(** The detector flags every file that is not empty. *)
Definition detector : Detector :=
  λ content, if bool_decide (content = "") then [] else [finding].

Definition config (a : addCmdConfig) (forced : bool)
    (answers : list (reply string)) : Config :=
  {| Add := a; force := forced; Mode := ModeFile;
     DestDirAbsPath := "/home"; SourceDirAbsPath := "/src";
     CacheDirAbsPath := "/cache"; WorkingTreeAbsPath := "/src";
     sourceDirAbsPath := "/src"; encryptedSuffix := ".age";
     destSystem := λ p, if bool_decide (p = "/home/id_rsa") then Got "KEY"
                        else Got "";
     gitleaksDetector := Got detector;
     replies := answers; trace := [] |}.

Definition source : SourceState :=
  {[ "id_rsa" := entry "id_rsa" privateTemplate ]}.

(** [add --secrets=error], nobody to ask. *)
Definition strict : Config := config (add severityError false false false) false [].

(** [add --secrets=warning --prompt], with the user's replies. *)
Definition asking (answers : list (reply string)) : Config :=
  config (add severityWarning false true false) false answers.

(** [add --encrypt --secrets=error]. *)
Definition encrypting : Config :=
  config (add severityError true false false) false [].

(** Two maps that hold the keys ["a"; "b"; "c"], walked in different orders. *)
Definition m1 : gomap string Z := [("b", 1); ("c", 2); ("a", 3)].
Definition m2 : gomap string bool := [("c", true); ("a", false); ("b", true)].

End Sample.

(** More of the same home directory: a file system that refuses to be read,
    a detector that cannot be built, a state file that cannot be had. *)
Module MoreSamples.
Import chezmoi cmd.

Definition unreadable : Config :=
  set_world (λ _, Failed "permission denied") (Got Sample.detector)
    Sample.strict.

Definition noDetector : Config :=
  set_world (destSystem Sample.strict) (Failed "bad detector configuration")
    Sample.strict.

(** [add --secrets=error --prompt], with the user's replies. *)
Definition strictAsking (answers : list (reply string)) : Config :=
  Sample.config (Sample.add severityError false true false) false answers.

Definition plainData : EntryData :=
  {| TargetPath := "id_rsa"; Attr := Sample.noAttr; Origin := "id_rsa" |}.

Definition guardedData : EntryData :=
  {| TargetPath := "id_rsa"; Attr := Sample.privateTemplate;
     Origin := "private_id_rsa.tmpl" |}.

(** A directory, mode [drwxr-xr-x]. *)
Definition directory : fs.FileInfo :=
  {| fs.Name := "dir"; fs.Mode := Z.lor fs.ModeDir 493 |}.

(** The same file as [Sample.regular], mode [rw-------]. *)
Definition secretive (name : string) : fs.FileInfo :=
  {| fs.Name := name; fs.Mode := 384 |}.

Definition noStateFile : cmd.Externals :=
  {| englishListWithNoun := @englishListWithNoun Sample.helpers;
     destAbsPathInfos := @destAbsPathInfos Sample.helpers;
     persistentStateFile := λ _, Failed "no state file";
     getConfigFileAbsPath := @getConfigFileAbsPath Sample.helpers |}.

(** A map that happens to be walked in the order of its keys. *)
Definition walked : gomap string Z := [("a", 1); ("b", 2); ("c", 3)].

End MoreSamples.

(* ===================================================================== *)
(** * Properties                                                          *)
(* ===================================================================== *)

(** ** Sorted keys *)

Section SortedKeysFacts.
Context {K : Type} (R : relation K) `{!RelDecision R}.

Lemma insert_Permutation (x : K) (l : list K) :
  slices.insert R x l ≡ₚ x :: l.
Proof.
  induction l as [|y l IH]; simpl; [done|].
  case_decide; [done|].
  rewrite IH. apply Permutation_swap.
Qed.

Lemma Sort_Permutation (l : list K) : slices.Sort R l ≡ₚ l.
Proof.
  induction l as [|x l IH]; simpl; [done|].
  by rewrite insert_Permutation, IH.
Qed.

Lemma insert_HdRel `{!Total R} (a x : K) (l : list K) :
  R a x → HdRel R a l → HdRel R a (slices.insert R x l).
Proof.
  intros Hax Hl. destruct l as [|y l]; simpl; [by constructor|].
  case_decide; constructor; [done|]. by inv Hl.
Qed.

Lemma insert_Sorted `{!Total R} (x : K) (l : list K) :
  Sorted R l → Sorted R (slices.insert R x l).
Proof.
  induction 1 as [|y l Hl IH Hy]; simpl; [by repeat constructor|].
  case_decide as Hxy.
  - by repeat constructor.
  - constructor; [done|].
    apply insert_HdRel; [|done].
    by destruct (total R x y).
Qed.

Lemma Sort_Sorted `{!Total R} (l : list K) : Sorted R (slices.Sort R l).
Proof.
  induction l as [|x l IH]; simpl; [constructor|]. by apply insert_Sorted.
Qed.

Lemma Keys_fst {V : Type} (m : gomap K V) : chezmoimaps.Keys m = m.*1.
Proof.
  unfold chezmoimaps.Keys.
  enough (∀ acc, foldl (λ r kv, r ++ [kv.1]) acc m = acc ++ m.*1) as H
    by apply (H []).
  induction m as [|kv m IH]; intros acc; simpl.
  - by rewrite app_nil_r.
  - rewrite IH. by rewrite <-app_assoc.
Qed.

(** C8.  [SortedKeys m] is a permutation of the keys of [m], in ascending
    order (every element is at most every later one); and two maps that hold
    the same keys, whatever the order in which each is walked and whatever
    their values, give the same slice. *)
Theorem SortedKeys_sorted_permutation `{!PartialOrder R, !Total R}
    {V1 V2 : Type} (m1 : gomap K V1) (m2 : gomap K V2) :
  (chezmoimaps.SortedKeys R m1 ≡ₚ m1.*1
   ∧ StronglySorted R (chezmoimaps.SortedKeys R m1)
   ∧ ∀ k, k ∈ chezmoimaps.SortedKeys R m1 ↔ has_key m1 k)
  ∧ (gomap_wf m1 → gomap_wf m2 →
     (∀ k, has_key m1 k ↔ has_key m2 k) →
     chezmoimaps.SortedKeys R m1 = chezmoimaps.SortedKeys R m2).
Proof.
  assert (∀ V (m : gomap K V), chezmoimaps.SortedKeys R m ≡ₚ m.*1) as Hperm.
  { intros V m. unfold chezmoimaps.SortedKeys. simpl.
    by rewrite Sort_Permutation, Keys_fst. }
  assert (∀ V (m : gomap K V),
            StronglySorted R (chezmoimaps.SortedKeys R m)) as Hsorted.
  { intros V m. apply Sorted_StronglySorted; [apply _|]. apply Sort_Sorted. }
  split; [split; [|split]|].
  - apply Hperm.
  - apply Hsorted.
  - intros k. unfold has_key. by rewrite Hperm.
  - intros Hwf1 Hwf2 Hkeys.
    apply (StronglySorted_unique R); [apply Hsorted..|].
    rewrite !Hperm. by apply NoDup_Permutation.
Qed.

End SortedKeysFacts.

Lemma SortedKeys_sorted_permutation_witness :
  chezmoimaps.SortedKeys String.le Sample.m1 = ["a"; "b"; "c"]
  ∧ chezmoimaps.SortedKeys String.le Sample.m1
    = chezmoimaps.SortedKeys String.le Sample.m2.
Proof.
  split; [reflexivity|].
  apply (SortedKeys_sorted_permutation String.le Sample.m1 Sample.m2).
  - apply (bool_decide_unpack _). vm_compute. exact I.
  - apply (bool_decide_unpack _). vm_compute. exact I.
  - intros k. unfold has_key. simpl.
    rewrite !elem_of_cons, !elem_of_nil. tauto.
Defined.

(** ** The hooks, case by case *)

Section HookFacts.
Import chezmoi cmd.
Context `{!chezmoi.Externals, !cmd.Externals}.

(** Unfolds the monad down to functions on [Config]. *)
Ltac run :=
  unfold ReadFile, getGitleaksDetector, DetectBytes, promptChoice, errorf;
  unfold emit;
  unfold mbind, mret, M_bind, M_ret, get, modify, panic;
  simpl.

(** Unfolds the updates of [Config] down to its fields. *)
Ltac fields :=
  unfold set_trace, set_replies, set_prompt, set_force, set_world; simpl.

Lemma set_trace_id c : set_trace (trace c) c = c.
Proof. by destruct c. Qed.

Lemma set_trace_set_trace t t' c : set_trace t (set_trace t' c) = set_trace t c.
Proof. done. Qed.

Lemma forEach_errorf (f : Finding → string) (findings : list Finding) c :
  forEach findings (λ finding, errorf (f finding)) c
  = (Returns (),
     set_trace (trace c ++ ((λ x, EvErrorf (f x)) <$> findings)) c).
Proof.
  revert c. induction findings as [|x l IH]; intros c; simpl.
  - run. by rewrite app_nil_r, set_trace_id.
  - unfold mbind, M_bind.
    change (errorf (f x) c)
      with (Returns (), set_trace (trace c ++ [EvErrorf (f x)]) c).
    cbv beta iota. rewrite IH. unfold set_trace; simpl.
    by rewrite <-app_assoc.
Qed.

(** *** The scan *)

Lemma scan_off p fileInfo c :
  scansContent c fileInfo = false →
  scanForSecrets p fileInfo c = (Returns None, c).
Proof. intros Hoff. unfold scanForSecrets. run. by rewrite Hoff. Qed.

Lemma scan_read_failed p fileInfo c msg :
  scansContent c fileInfo = true →
  destSystem c (Join (DestDirAbsPath c) p) = Failed msg →
  scanForSecrets p fileInfo c
  = (Returns (Some (IOError msg)),
     set_trace (trace c ++ [EvReadFile (Join (DestDirAbsPath c) p)]) c).
Proof.
  intros Hon Hread. unfold scanForSecrets. run. by rewrite Hon, Hread.
Qed.

Lemma scan_detector_failed p fileInfo c content msg :
  scansContent c fileInfo = true →
  destSystem c (Join (DestDirAbsPath c) p) = Got content →
  gitleaksDetector c = Failed msg →
  scanForSecrets p fileInfo c
  = (Returns (Some (IOError msg)),
     set_trace (trace c ++ [EvReadFile (Join (DestDirAbsPath c) p)]) c).
Proof.
  intros Hon Hread Hdet. unfold scanForSecrets. run.
  rewrite Hon, Hread. fields. by rewrite Hdet.
Qed.

Lemma scan_done p fileInfo c content detector :
  scansContent c fileInfo = true →
  destSystem c (Join (DestDirAbsPath c) p) = Got content →
  gitleaksDetector c = Got detector →
  scanForSecrets p fileInfo c
  = (Returns (if violatesPolicy c (detector content)
              then Some (ExitCodeError 1) else None),
     set_trace
       (trace c ++ EvReadFile (Join (DestDirAbsPath c) p)
                :: EvDetectBytes content
                :: ((λ x, EvErrorf (report (Join (DestDirAbsPath c) p) x))
                      <$> detector content)) c).
Proof.
  intros Hon Hread Hdet. unfold scanForSecrets. run.
  rewrite Hon, Hread.
  change (gitleaksDetector (set_trace _ c)) with (gitleaksDetector c).
  rewrite Hdet.
  pose proof (forEach_errorf (report (Join (DestDirAbsPath c) p))) as Hlog.
  unfold errorf, emit, modify in Hlog. rewrite Hlog. fields.
  rewrite <-!app_assoc. simpl.
  unfold violatesPolicy. simpl. by case_match.
Qed.

(** *** The prompt before an entry is added *)

Lemma confirm_off p c :
  prompt (Add c) = false → confirmAdd p c = (Returns None, c).
Proof. intros Hoff. unfold confirmAdd. run. by rewrite Hoff. Qed.

Lemma confirm_eof p c :
  prompt (Add c) = true → replies c = [] →
  confirmAdd p c
  = (Returns (Some (IOError "EOF")), set_trace (trace c ++ [addPrompt c p]) c).
Proof.
  intros Hon Hnone. unfold confirmAdd. run. rewrite Hon. fields.
  by rewrite Hnone.
Qed.

Lemma confirm_reply p c a rs :
  prompt (Add c) = true → replies c = a :: rs →
  confirmAdd p c
  = (choiceResult a,
     (if bool_decide (a = Got "all") then set_prompt false else id)
       (set_replies rs (set_trace (trace c ++ [addPrompt c p]) c))).
Proof.
  intros Hon Hsome. unfold confirmAdd. run. rewrite Hon. fields.
  rewrite Hsome. destruct a as [choice|msg]; simpl; [|done].
  repeat case_bool_decide; simplify_eq; done.
Qed.

(** *** The replace hook *)

Lemma replace_forced p new old c :
  force c = true → defaultReplaceFunc p new old c = (Returns None, c).
Proof. intros Hforce. unfold defaultReplaceFunc. run. by rewrite Hforce. Qed.

Lemma replace_not_files p new old c :
  asSourceStateFile new = None ∨ asSourceStateFile old = None →
  defaultReplaceFunc p new old c = (Returns None, c).
Proof.
  intros Hnot. unfold defaultReplaceFunc.
  destruct Hnot as [-> | ->]; [|destruct (asSourceStateFile new)];
    run; by destruct (force c).
Qed.

Lemma replace_nothing_removed p new old newFile oldFile c :
  asSourceStateFile new = Some newFile →
  asSourceStateFile old = Some oldFile →
  removedAttributes newFile oldFile = [] →
  defaultReplaceFunc p new old c = (Returns None, c).
Proof.
  intros Hnew Hold Hnone. unfold defaultReplaceFunc.
  rewrite Hnew, Hold, Hnone. run. by destruct (force c).
Qed.

Lemma replace_eof p new old newFile oldFile c :
  force c = false →
  asSourceStateFile new = Some newFile →
  asSourceStateFile old = Some oldFile →
  removedAttributes newFile oldFile ≠ [] →
  replies c = [] →
  defaultReplaceFunc p new old c
  = (Returns (Some (IOError "EOF")),
     set_trace (trace c ++ [replacePrompt p newFile oldFile]) c).
Proof.
  intros Hforce Hnew Hold Hsome Hnone. unfold defaultReplaceFunc.
  rewrite Hnew, Hold.
  rewrite bool_decide_eq_false_2 by (by intros ?%nil_length_inv).
  run. rewrite Hforce. fields. by rewrite Hnone.
Qed.

Lemma replace_reply p new old newFile oldFile c a rs :
  force c = false →
  asSourceStateFile new = Some newFile →
  asSourceStateFile old = Some oldFile →
  removedAttributes newFile oldFile ≠ [] →
  replies c = a :: rs →
  defaultReplaceFunc p new old c
  = (choiceResult a,
     (if bool_decide (a = Got "all") then set_force true else id)
       (set_replies rs
          (set_trace (trace c ++ [replacePrompt p newFile oldFile]) c))).
Proof.
  intros Hforce Hnew Hold Hsome Hreply. unfold defaultReplaceFunc.
  rewrite Hnew, Hold.
  rewrite bool_decide_eq_false_2 by (by intros ?%nil_length_inv).
  run. rewrite Hforce. fields. rewrite Hreply.
  destruct a as [choice|msg]; simpl; [|done].
  repeat case_bool_decide; simplify_eq; done.
Qed.

(** *** The ignore callback *)

Lemma ignore_quiet p c :
  quiet (Add c) = true → defaultOnIgnoreFunc p c = (Returns (), c).
Proof. intros Hq. unfold defaultOnIgnoreFunc. run. by rewrite Hq. Qed.

Lemma ignore_loud p c :
  quiet (Add c) = false →
  defaultOnIgnoreFunc p c
  = (Returns (),
     set_trace (trace c ++ [EvErrorf ("warning: ignoring " +:+ p +:+ nl)]) c).
Proof. intros Hq. unfold defaultOnIgnoreFunc. run. by rewrite Hq. Qed.

(** *** What a hook leaves of the configuration *)

Lemma prompts_app t1 t2 : prompts (t1 ++ t2) = prompts t1 ++ prompts t2.
Proof. apply omap_app. Qed.

Lemma reads_app t1 t2 : reads (t1 ++ t2) = reads t1 ++ reads t2.
Proof. apply omap_app. Qed.

Lemma scans_app t1 t2 : scans (t1 ++ t2) = scans t1 ++ scans t2.
Proof. apply omap_app. Qed.

Lemma messages_app t1 t2 : messages (t1 ++ t2) = messages t1 ++ messages t2.
Proof. apply omap_app. Qed.

Lemma prompts_reports absPath (findings : list Finding) :
  prompts ((λ x, EvErrorf (report absPath x)) <$> findings) = [].
Proof. by induction findings. Qed.

Lemma reads_reports absPath (findings : list Finding) :
  reads ((λ x, EvErrorf (report absPath x)) <$> findings) = [].
Proof. by induction findings. Qed.

Lemma scans_reports absPath (findings : list Finding) :
  scans ((λ x, EvErrorf (report absPath x)) <$> findings) = [].
Proof. by induction findings. Qed.

(** The scan returns, only adds to the trace, and asks the user nothing; it
    ends in exit code 1 only under [violatesPolicy]. *)
Lemma scan_frame p fileInfo c :
  ∃ r evs,
    scanForSecrets p fileInfo c = (Returns r, set_trace (trace c ++ evs) c)
    ∧ prompts evs = []
    ∧ (r = Some (ExitCodeError 1) → force c = false).
Proof.
  destruct (scansContent c fileInfo) eqn:Hon.
  2:{ exists None, []. rewrite scan_off by done.
      by rewrite app_nil_r, set_trace_id. }
  destruct (destSystem c (Join (DestDirAbsPath c) p)) as [content|msg] eqn:Hread.
  2:{ eexists _, _. rewrite (scan_read_failed _ _ _ msg) by done. done. }
  destruct (gitleaksDetector c) as [detector|msg] eqn:Hdet.
  2:{ eexists _, _. rewrite (scan_detector_failed _ _ _ content msg) by done.
      done. }
  eexists _, _. rewrite (scan_done _ _ _ content detector) by done.
  split; [done|]. split.
  - simpl. apply prompts_reports.
  - unfold violatesPolicy. destruct (force c); [|done].
    simpl. discriminate.
Qed.

Lemma preAdd_unfold p fileInfo c r c1 :
  scanForSecrets p fileInfo c = (Returns r, c1) →
  defaultPreAddFunc p fileInfo c
  = match r with
    | Some err => (Returns (Some err), c1)
    | None => confirmAdd p c1
    end.
Proof.
  intros Hscan. unfold defaultPreAddFunc, mbind, M_bind. rewrite Hscan.
  by destruct r.
Qed.

(** The prompt takes no reply, or takes the first one and returns what
    [choiceResult] makes of it. *)
Lemma confirm_frame p c :
  let r := confirmAdd p c in
  force r.2 = force c
  ∧ (prompt (Add c) = false → r = (Returns None, c))
  ∧ (prompt (Add r.2) = true → Add r.2 = Add c)
  ∧ ((replies r.2 = replies c ∧ (∀ e, r.1 = Returns (Some e) → ∃ msg, e = IOError msg))
     ∨ (∃ a, replies c = a :: replies r.2 ∧ r.1 = choiceResult a
             ∧ (a = Got "all" → prompt (Add r.2) = false))).
Proof.
  destruct (prompt (Add c)) eqn:Hon.
  2:{ rewrite confirm_off by done. simpl. split_and!; try done.
      left. split; [done|]. discriminate. }
  destruct (replies c) as [|a rs] eqn:Hreply.
  { rewrite confirm_eof by done. simpl. split_and!; try done.
    left. split; [done|]. intros e [= <-]. by eexists. }
  rewrite (confirm_reply _ _ a rs) by done. simpl.
  case_bool_decide as Hall; simpl; split_and!; try done.
  all: right; exists a; done.
Qed.

Lemma choiceResult_not_violation a :
  choiceResult a ≠ Returns (Some (ExitCodeError 1)).
Proof.
  destruct a as [choice|msg]; simpl; [|done].
  repeat case_bool_decide; done.
Qed.

Lemma preAdd_frame p fileInfo c :
  let r := defaultPreAddFunc p fileInfo c in
  force r.2 = force c
  ∧ (prompt (Add c) = false →
     prompts (trace r.2) = prompts (trace c) ∧ replies r.2 = replies c
     ∧ Add r.2 = Add c)
  ∧ (prompt (Add r.2) = true → Add r.2 = Add c)
  ∧ (replies r.2 = replies c
     ∨ (∃ a, replies c = a :: replies r.2 ∧ r.1 = choiceResult a
             ∧ (a = Got "all" → prompt (Add r.2) = false)))
  ∧ (r.1 = Returns (Some (ExitCodeError 1)) → force c = false).
Proof.
  destruct (scan_frame p fileInfo c) as (r & evs & Hscan & Hevs & Hviol).
  rewrite (preAdd_unfold _ _ _ _ _ Hscan).
  destruct r as [err|]; simpl.
  { split_and!; try done.
    - intros _. by rewrite prompts_app, Hevs, app_nil_r.
    - by left.
    - intros [= ->]. by apply Hviol. }
  pose proof (confirm_frame p (set_trace (trace c ++ evs) c)) as Hc.
  simpl in Hc. destruct Hc as (Hforce & Hoff & Hadd & Hreplies).
  split_and!; try done.
  - intros Hp. rewrite Hoff by done. simpl.
    by rewrite prompts_app, Hevs, app_nil_r.
  - destruct Hreplies as [[Hsame _]|Hone]; [by left|by right].
  - destruct Hreplies as [[_ Hio]|(a & _ & Ha & _)].
    + intros Hr. by destruct (Hio _ Hr).
    + intros Hr. rewrite Ha in Hr. by apply choiceResult_not_violation in Hr.
Qed.

Lemma replace_frame p new old c :
  let r := defaultReplaceFunc p new old c in
  Add r.2 = Add c
  ∧ (force c = true → r = (Returns None, c))
  ∧ (force r.2 = false → force c = false)
  ∧ (replies r.2 = replies c
     ∨ (∃ a, replies c = a :: replies r.2 ∧ r.1 = choiceResult a
             ∧ (a = Got "all" → force r.2 = true))).
Proof.
  cbv zeta. destruct (force c) eqn:Hforce.
  { rewrite replace_forced by done. simpl. split_and!; try done;
      [congruence|by left]. }
  destruct (asSourceStateFile new) as [newFile|] eqn:Hnew.
  2:{ rewrite replace_not_files by auto. simpl. split_and!; try done.
      by left. }
  destruct (asSourceStateFile old) as [oldFile|] eqn:Hold.
  2:{ rewrite replace_not_files by auto. simpl. split_and!; try done.
      by left. }
  destruct (decide (removedAttributes newFile oldFile = [])) as [Hnil|Hnil].
  { rewrite (replace_nothing_removed _ _ _ newFile oldFile) by done. simpl.
    split_and!; try done. by left. }
  destruct (replies c) as [|a rs] eqn:Hreply.
  { rewrite (replace_eof _ _ _ newFile oldFile) by done. simpl.
    split_and!; try done. by left. }
  rewrite (replace_reply _ _ _ newFile oldFile _ a rs) by done. simpl.
  case_bool_decide as Hall; simpl; split_and!; try done.
  all: right; exists a; done.
Qed.

Lemma ignore_frame p c :
  let r := defaultOnIgnoreFunc p c in
  r.1 = Returns () ∧ Add r.2 = Add c ∧ force r.2 = force c
  ∧ replies r.2 = replies c ∧ prompts (trace r.2) = prompts (trace c).
Proof.
  cbv zeta. destruct (quiet (Add c)) eqn:Hq.
  - by rewrite ignore_quiet.
  - rewrite ignore_loud by done. simpl. split_and!; try done.
    by rewrite prompts_app, app_nil_r.
Qed.

(** *** What lasts for the rest of the run *)

Lemma step_force c c' : step c c' → force c = true → force c' = true.
Proof.
  intros Hstep Hforce. destruct Hstep as [p c|p fileInfo c|p new old c|c c' ? Hf].
  - by rewrite (proj1 (proj2 (proj2 (ignore_frame p c)))).
  - by rewrite (proj1 (preAdd_frame p fileInfo c)).
  - destruct (replace_frame p new old c) as (_ & Hsame & _).
    by rewrite Hsame.
  - congruence.
Qed.

Lemma step_prompt c c' :
  step c c' → prompt (Add c) = false → prompt (Add c') = false.
Proof.
  intros Hstep Hoff. destruct Hstep as [p c|p fileInfo c|p new old c|c c' Ha ?].
  - by rewrite (proj1 (proj2 (ignore_frame p c))).
  - destruct (preAdd_frame p fileInfo c) as (_ & Hsame & _).
    destruct (Hsame Hoff) as (_ & _ & ->). done.
  - by rewrite (proj1 (replace_frame p new old c)).
  - congruence.
Qed.

Lemma later_force c c' : later c c' → force c = true → force c' = true.
Proof. induction 1; eauto using step_force. Qed.

Lemma later_prompt c c' :
  later c c' → prompt (Add c) = false → prompt (Add c') = false.
Proof. induction 1; eauto using step_prompt. Qed.

End HookFacts.

(** ** The ignore callback *)

(** C10, as the code has it.  The ignore callback returns, and what it
    writes depends on [quiet]: without it, one warning that names the path,
    once; with it, nothing at all. *)
Theorem ignore_warns_once_unless_quiet (c : cmd.Config) (p : chezmoi.RelPath) :
  let r := cmd.defaultOnIgnoreFunc p c in
  r.1 = Returns ()
  ∧ r.2 = cmd.set_trace
            (cmd.trace c
             ++ (if cmd.quiet (cmd.Add c) then []
                 else [cmd.EvErrorf ("warning: ignoring " +:+ p +:+ cmd.nl)])) c
  ∧ cmd.messages (cmd.trace r.2)
    = cmd.messages (cmd.trace c)
      ++ (if cmd.quiet (cmd.Add c) then []
          else ["warning: ignoring " +:+ p +:+ cmd.nl]).
Proof.
  cbv zeta. destruct (cmd.quiet (cmd.Add c)) eqn:Hq.
  - rewrite ignore_quiet by done. simpl.
    by rewrite !app_nil_r, set_trace_id.
  - rewrite ignore_loud by done. simpl. split_and!; try done.
    by rewrite messages_app.
Qed.

(** Without the proviso on [quiet] the statement fails: under [--quiet] the
    callback is called for an ignored path and no warning is written. *)
Lemma ignore_quiet_writes_nothing :
  ¬ (∀ (c : cmd.Config) (p : chezmoi.RelPath),
       cmd.messages (cmd.trace (cmd.defaultOnIgnoreFunc p c).2)
       = cmd.messages (cmd.trace c) ++ ["warning: ignoring " +:+ p +:+ cmd.nl]).
Proof.
  intros Hall.
  specialize (Hall (Sample.config (Sample.add cmd.severityWarning false false true)
                                  false []) "id_rsa").
  vm_compute in Hall. discriminate Hall.
Qed.

(** ** The replace hook *)

Section ReplaceHook.
Import chezmoi cmd.
Context `{!chezmoi.Externals, !cmd.Externals}.

Lemma removedAttributes_dropsAttr (newFile oldFile : EntryData) :
  removedAttributes newFile oldFile = []
  ↔ dropsAttr (SourceStateFile newFile) (SourceStateFile oldFile) = false.
Proof.
  unfold removedAttributes, dropsAttr. simpl.
  destruct (Encrypted (Attr newFile)), (Encrypted (Attr oldFile)),
    (Private (Attr newFile)), (Private (Attr oldFile)),
    (Template (Attr newFile)), (Template (Attr oldFile)); simpl;
    split; done.
Qed.

(** C3.  The replace hook puts a prompt only if both entries are file
    entries and the new one drops Encrypted, Private or Template of the old
    one; when [force] is set, or one of the entries is not a file, or nothing
    is dropped, it returns [nil] (Proceed) and leaves the configuration and
    the terminal as they were.  In the remaining case it prompts once. *)
Theorem replace_prompts_only_when_attribute_dropped
    (c : Config) (p : RelPath) (new old : SourceStateEntry) :
  let r := defaultReplaceFunc p new old c in
  let dropping :=
    is_Some (asSourceStateFile new) ∧ is_Some (asSourceStateFile old)
    ∧ dropsAttr new old = true in
  (prompts (trace r.2) ≠ prompts (trace c) → dropping)
  ∧ (force c = true ∨ ¬ dropping →
     ∃ e, r = (Returns e, c) ∧ decisionOf e = Proceed)
  ∧ (force c = false → dropping →
     ∃ text, prompts (trace r.2) = prompts (trace c) ++ [text]).
Proof.
  cbv zeta.
  destruct new as [newFile| | | |]; try
    (rewrite replace_not_files by auto; simpl; split_and!;
      [done | by exists None | by intros _ ([? [=]] & _)]).
  destruct old as [oldFile| | | |]; try
    (rewrite replace_not_files by auto; simpl; split_and!;
      [done | by exists None | by intros _ (_ & [? [=]] & _)]).
  destruct (decide (removedAttributes newFile oldFile = [])) as [Hnil|Hsome].
  { rewrite (replace_nothing_removed _ _ _ newFile oldFile) by done.
    apply removedAttributes_dropsAttr in Hnil.
    split_and!; [done | by exists None |].
    intros _ (_ & _ & Hdrop). congruence. }
  assert (dropsAttr (SourceStateFile newFile) (SourceStateFile oldFile) = true)
    as Hdrop.
  { apply not_false_iff_true. by rewrite <-removedAttributes_dropsAttr. }
  destruct (force c) eqn:Hforce.
  { rewrite replace_forced by done.
    split_and!; [done | by exists None | done]. }
  split_and!.
  - intros _. split_and!; [by eexists | by eexists | done].
  - intros [? | Hnot]; [done|]. destruct Hnot.
    split_and!; [by eexists | by eexists | done].
  - intros _ _. destruct (replies c) as [|a rs] eqn:Hreply.
    + rewrite (replace_eof _ _ _ newFile oldFile) by done. simpl.
      rewrite prompts_app. by eexists.
    + rewrite (replace_reply _ _ _ newFile oldFile _ a rs) by done. simpl.
      case_bool_decide; simpl; rewrite prompts_app; by eexists.
Qed.

(** C5.  Once the user has answered [all] to the replace prompt, the hook
    has returned [nil] (Proceed) and [force] is set; from then on, whatever
    the run does, every call of the replace hook returns [nil] at once: no
    prompt, no reply taken, nothing changed. *)
Theorem replace_all_ends_replace_prompts
    (c : Config) (p : RelPath) (new old : SourceStateEntry) :
  answered (defaultReplaceFunc p new old) c (Got "all") →
  let r := defaultReplaceFunc p new old c in
  (∃ e, r.1 = Returns e ∧ decisionOf e = Proceed)
  ∧ force r.2 = true
  ∧ ∀ c2, later r.2 c2 →
      ∀ p' new' old', defaultReplaceFunc p' new' old' c2 = (Returns None, c2).
Proof.
  intros Hall. cbv zeta.
  destruct (replace_frame p new old c) as (_ & _ & _ & [Hsame|Hone]).
  { unfold answered, consumes in Hall. rewrite Hsame in Hall.
    by apply (f_equal length) in Hall; simpl in Hall; lia. }
  destruct Hone as (a & Hreply & Hres & Hforce).
  unfold answered, consumes in Hall. simpl in Hall.
  rewrite Hreply in Hall. injection Hall as ->.
  split_and!.
  - exists None. by rewrite Hres.
  - by apply Hforce.
  - intros c2 Hlater p' new' old'. apply replace_forced.
    apply (later_force _ _ Hlater). by apply Hforce.
Qed.

(** C6.  The reply [all] at the replace prompt sets the one [force] flag of
    the run, the same flag that guards the abort of the secret scan: from
    then on no call of the pre-add hook returns exit code 1, whatever the
    scan finds and whatever the severity. *)
Theorem replace_all_suppresses_policy_abort
    (c : Config) (p : RelPath) (new old : SourceStateEntry) :
  answered (defaultReplaceFunc p new old) c (Got "all") →
  let r := defaultReplaceFunc p new old c in
  force r.2 = true
  ∧ ∀ c2, later r.2 c2 →
      force c2 = true
      ∧ ∀ p' fileInfo,
          (defaultPreAddFunc p' fileInfo c2).1
          ≠ Returns (Some PolicyViolationError).
Proof.
  intros Hall. cbv zeta.
  destruct (replace_frame p new old c) as (_ & _ & _ & [Hsame|Hone]).
  { unfold answered, consumes in Hall. rewrite Hsame in Hall.
    by apply (f_equal length) in Hall; simpl in Hall; lia. }
  destruct Hone as (a & Hreply & Hres & Hforce).
  unfold answered, consumes in Hall. simpl in Hall.
  rewrite Hreply in Hall. injection Hall as ->.
  split; [by apply Hforce|].
  intros c2 Hlater.
  assert (force c2 = true) as Hc2
    by (apply (later_force _ _ Hlater); by apply Hforce).
  split; [done|]. intros p' fileInfo Hviol.
  destruct (preAdd_frame p' fileInfo c2) as (_ & _ & _ & _ & Hoff).
  specialize (Hoff Hviol). congruence.
Qed.

End ReplaceHook.

(** ** The pre-add hook *)

Section PreAddHook.
Import chezmoi cmd.
Context `{!chezmoi.Externals, !cmd.Externals}.

Lemma confirm_world p c fsys d :
  confirmAdd p (set_world fsys d c)
  = ((confirmAdd p c).1, set_world fsys d (confirmAdd p c).2).
Proof.
  destruct (prompt (Add c)) eqn:Hon.
  2:{ by rewrite !confirm_off. }
  destruct (replies c) as [|a rs] eqn:Hreply.
  { by rewrite !confirm_eof. }
  rewrite (confirm_reply p c a rs), (confirm_reply p (set_world fsys d c) a rs)
    by done.
  simpl. by case_bool_decide.
Qed.

Lemma confirm_reads_nothing p c :
  reads (trace (confirmAdd p c).2) = reads (trace c)
  ∧ scans (trace (confirmAdd p c).2) = scans (trace c).
Proof.
  destruct (prompt (Add c)) eqn:Hon.
  2:{ by rewrite !confirm_off. }
  destruct (replies c) as [|a rs] eqn:Hreply.
  { rewrite !confirm_eof by done. simpl.
    by rewrite reads_app, scans_app, !app_nil_r. }
  rewrite (confirm_reply p c a rs) by done.
  case_bool_decide; simpl; by rewrite reads_app, scans_app, !app_nil_r.
Qed.

Lemma confirm_not_violation p c :
  (confirmAdd p c).1 ≠ Returns (Some PolicyViolationError).
Proof.
  destruct (confirm_frame p c) as (_ & _ & _ & [[_ Hio]|(a & _ & Ha & _)]).
  - intros Hr. by destruct (Hio _ Hr).
  - rewrite Ha. apply choiceResult_not_violation.
Qed.

Lemma scansContent_enabled c fileInfo :
  scansContent c fileInfo = true
  ↔ Secrets (Add c) ≠ severityIgnore ∧ fs.Type_ (fs.Mode fileInfo) = 0
    ∧ Encrypt (Add c) = false.
Proof.
  unfold scansContent.
  rewrite !andb_true_iff, !negb_true_iff, bool_decide_eq_false,
    bool_decide_eq_true.
  tauto.
Qed.

(** C7.  The hook scans when, and only when, scanning is on (the severity is
    not [ignore]), the candidate is a regular file and [Encrypt] is not set.
    Under these three conditions it reads the candidate's content, and hands
    to the detector what the file system returned, provided the read and the
    detector did not fail (a failure is returned as it is); otherwise it
    reads nothing and scans nothing.  With [Encrypt] set, the hook never ends
    in the policy violation, and neither its result nor what it does depends
    on what the file system holds or on the detector. *)
Theorem scans_iff_enabled_regular_unencrypted
    (c : Config) (p : RelPath) (fileInfo : fs.FileInfo) :
  let r := defaultPreAddFunc p fileInfo c in
  let absPath := Join (DestDirAbsPath c) p in
  let enabled :=
    Secrets (Add c) ≠ severityIgnore ∧ fs.Type_ (fs.Mode fileInfo) = 0
    ∧ Encrypt (Add c) = false in
  (enabled →
   reads (trace r.2) = reads (trace c) ++ [absPath]
   ∧ ∀ content detector,
       destSystem c absPath = Got content →
       gitleaksDetector c = Got detector →
       scans (trace r.2) = scans (trace c) ++ [content])
  ∧ (¬ enabled →
     reads (trace r.2) = reads (trace c)
     ∧ scans (trace r.2) = scans (trace c))
  ∧ (scans (trace r.2) ≠ scans (trace c) → enabled)
  ∧ (Encrypt (Add c) = true →
     reads (trace r.2) = reads (trace c)
     ∧ scans (trace r.2) = scans (trace c)
     ∧ r.1 ≠ Returns (Some PolicyViolationError)
     ∧ ∀ fsys d,
         defaultPreAddFunc p fileInfo (set_world fsys d c)
         = (r.1, set_world fsys d r.2)).
Proof.
  cbv zeta. rewrite <-scansContent_enabled.
  destruct (scansContent c fileInfo) eqn:Hon.
  - (* the scan is on *)
    assert (Encrypt (Add c) = false) as Hplain
      by (by apply scansContent_enabled in Hon as (_ & _ & ?)).
    split_and!; [|done|done|congruence].
    intros _.
    destruct (destSystem c (Join (DestDirAbsPath c) p)) as [content|msg]
      eqn:Hread.
    2:{ rewrite (preAdd_unfold _ _ _ _ _ (scan_read_failed _ _ _ msg Hon Hread)).
        simpl. by rewrite reads_app. }
    destruct (gitleaksDetector c) as [detector|msg] eqn:Hdet.
    2:{ rewrite (preAdd_unfold _ _ _ _ _
                   (scan_detector_failed _ _ _ content msg Hon Hread Hdet)).
        simpl. by rewrite reads_app. }
    rewrite (preAdd_unfold _ _ _ _ _
               (scan_done _ _ _ content detector Hon Hread Hdet)).
    match goal with
    | |- context [set_trace ?t c] => set (c1 := set_trace t c)
    end.
    assert (reads (trace c1)
            = reads (trace c) ++ [Join (DestDirAbsPath c) p]) as Hreads.
    { subst c1. simpl. rewrite reads_app. simpl. by rewrite reads_reports. }
    assert (scans (trace c1) = scans (trace c) ++ [content]) as Hscans.
    { subst c1. simpl. rewrite scans_app. simpl. by rewrite scans_reports. }
    destruct (confirm_reads_nothing p c1) as [Hr Hs].
    destruct (violatesPolicy c (detector content)); simpl.
    + split; [done|]. by intros ?? [= <-] [= <-].
    + rewrite Hr, Hs. split; [done|]. by intros ?? [= <-] [= <-].
  - (* the scan is off: the hook is its prompt *)
    rewrite (preAdd_unfold _ _ _ _ _ (scan_off p fileInfo c Hon)).
    destruct (confirm_reads_nothing p c) as [Hr Hs].
    split_and!; [done|done|congruence|].
    intros Henc. split_and!; [done | done | apply confirm_not_violation |].
    intros fsys d.
    assert (scansContent (set_world fsys d c) fileInfo = false) as Hoff
      by done.
    rewrite (preAdd_unfold _ _ _ _ _ (scan_off p fileInfo _ Hoff)).
    apply confirm_world.
Qed.

(** C4.  Once the user has answered [all] to the pre-add prompt, the hook has
    returned [nil] (Proceed) and [prompt] is off; from then on, whatever the
    run does, no call of the pre-add hook puts a prompt or takes a reply. *)
Theorem add_all_ends_add_prompts
    (c : Config) (p : RelPath) (fileInfo : fs.FileInfo) :
  answered (defaultPreAddFunc p fileInfo) c (Got "all") →
  let r := defaultPreAddFunc p fileInfo c in
  (∃ e, r.1 = Returns e ∧ decisionOf e = Proceed)
  ∧ prompt (Add r.2) = false
  ∧ ∀ c2, later r.2 c2 →
      ∀ p' fileInfo',
        let r' := defaultPreAddFunc p' fileInfo' c2 in
        prompts (trace r'.2) = prompts (trace c2)
        ∧ replies r'.2 = replies c2.
Proof.
  intros Hall. cbv zeta.
  destruct (preAdd_frame p fileInfo c) as (_ & _ & _ & [Hsame|Hone] & _).
  { unfold answered, consumes in Hall. rewrite Hsame in Hall.
    by apply (f_equal length) in Hall; simpl in Hall; lia. }
  destruct Hone as (a & Hreply & Hres & Hoff).
  unfold answered, consumes in Hall. simpl in Hall.
  rewrite Hreply in Hall. injection Hall as ->.
  split_and!.
  - exists None. by rewrite Hres.
  - by apply Hoff.
  - intros c2 Hlater p' fileInfo'.
    destruct (preAdd_frame p' fileInfo' c2) as (_ & Hquiet & _).
    destruct Hquiet as (? & ? & _); [|done].
    apply (later_prompt _ _ Hlater). by apply Hoff.
Qed.

End PreAddHook.

(** ** The capture loop with the hooks of [add] *)

Section Run.
Import chezmoi cmd.
Context `{!chezmoi.Externals, !cmd.Externals}.

Lemma bind_returns {S A B : Type} (m : M S A) (k : A → M S B) s a s' :
  m s = (Returns a, s') → (m ≫= k) s = k a s'.
Proof. intros Hm. unfold mbind, M_bind. by rewrite Hm. Qed.

Lemma bind_panics {S A B : Type} (m : M S A) (k : A → M S B) s msg s' :
  m s = (Panics msg, s') → (m ≫= k) s = (Panics msg, s').
Proof. intros Hm. unfold mbind, M_bind. by rewrite Hm. Qed.

Lemma choiceResult_quit a e :
  choiceResult a = Returns (Some e) → decisionOf (Some e) ≠ Skip →
  (a = Got "quit" ∧ e = ExitCodeError 0) ∨ (∃ msg, a = Failed msg ∧ e = IOError msg).
Proof.
  destruct a as [choice|msg]; simpl.
  - repeat case_bool_decide; intros [=]; subst; simpl; try done.
    intros _. by left.
  - intros [= <-] _. right. by eexists.
Qed.

Lemma choiceResult_cases a :
  (a = Got "quit" ∧ choiceResult a = Returns (Some (ExitCodeError 0)))
  ∨ (a = Got "no" ∧ choiceResult a = Returns (Some SkipDir))
  ∨ (a ≠ Got "quit" ∧ a ≠ Got "no"
     ∧ (choiceResult a = Returns None
        ∨ (∃ msg, choiceResult a = Returns (Some (IOError msg)))
        ∨ (∃ msg, choiceResult a = Panics msg))).
Proof.
  destruct a as [choice|msg]; simpl.
  - repeat case_bool_decide; subst; try done; eauto 10.
    all: right; right; split_and!; try congruence; eauto.
  - right. right. split_and!; try done. eauto.
Qed.

Lemma round_silent s c o c' : replies c' = replies c → round s c (o, c').
Proof.
  intros Hsame. exists []. simpl. rewrite Hsame. split_and!; [done| |done].
  by intros ?%elem_of_nil.
Qed.

Lemma round_prefix a s c c1 r :
  replies c = a :: replies c1 → a ≠ Got "quit" → a ≠ Got "no" →
  round s c1 r → round s c r.
Proof.
  intros Hc Hquit Hno (l & Hl & Hq & Hn). exists (a :: l).
  split_and!.
  - by rewrite Hc, Hl.
  - intros [?|?]%elem_of_cons; [done|auto].
  - destruct l as [|b l]; simpl; [congruence|]. apply Hn.
Qed.

Lemma hooklike_ret (e : option error) : hooklike (mret e).
Proof. intros c. by left. Qed.

Lemma hooklike_preAdd p fileInfo : hooklike (defaultPreAddFunc p fileInfo).
Proof.
  intros c. destruct (preAdd_frame p fileInfo c) as (_ & _ & _ & [?|Ha] & _);
    [by left|].
  destruct Ha as (a & ? & ? & _). right. by exists a.
Qed.

Lemma hooklike_replace p new old : hooklike (defaultReplaceFunc p new old).
Proof.
  intros c. destruct (replace_frame p new old c) as (_ & _ & _ & [?|Ha]);
    [by left|].
  destruct Ha as (a & ? & ? & _). right. by exists a.
Qed.

Lemma round_hook (m : M Config (option error))
    (k : option error → M Config (option error * SourceState)) s c :
  hooklike m →
  k (Some SkipDir) = mret (None, s) →
  k (Some (ExitCodeError 0)) = mret (Some (ExitCodeError 0), s) →
  (∀ e c1, round s c1 (k e c1)) →
  round s c ((m ≫= k) c).
Proof.
  intros Hm Hskip Hquit Hk.
  destruct (m c) as [o c1] eqn:Hcall.
  specialize (Hm c). rewrite Hcall in Hm. simpl in Hm.
  destruct Hm as [Hsame | (a & Hone & ->)].
  - destruct o as [e|msg].
    + rewrite (bind_returns _ _ _ _ _ Hcall).
      destruct (Hk e c1) as (l & Hl & ?). exists l. by rewrite <-Hsame.
    + rewrite (bind_panics _ _ _ _ _ Hcall). by apply round_silent.
  - destruct (choiceResult_cases a) as [[-> Ha]|[[-> Ha]|(? & ? & Ha)]].
    + rewrite Ha in Hcall. rewrite (bind_returns _ _ _ _ _ Hcall), Hquit.
      exists [Got "quit"]. by rewrite Hone.
    + rewrite Ha in Hcall. rewrite (bind_returns _ _ _ _ _ Hcall), Hskip.
      exists [Got "no"]. rewrite Hone. split_and!; [done| |done].
      by intros [[=]|?%elem_of_nil]%elem_of_cons.
    + destruct Ha as [Ha|[[msg Ha]|[msg Ha]]]; rewrite Ha in Hcall.
      * rewrite (bind_returns _ _ _ _ _ Hcall).
        by apply (round_prefix a _ _ c1).
      * rewrite (bind_returns _ _ _ _ _ Hcall).
        by apply (round_prefix a _ _ c1).
      * rewrite (bind_panics _ _ _ _ _ Hcall).
        apply (round_prefix a _ _ c1); [done..|]. by apply round_silent.
Qed.

Lemma addOne_round c0 psf (s : SourceState) destAbsPath info c :
  round s c (addOne (addOptions c0 psf) s destAbsPath info c).
Proof.
  unfold addOne. simpl.
  set (p := TrimDirPrefix destAbsPath).
  assert (round s c ((defaultOnIgnoreFunc p;; mret (None, s)) c)) as Hignore.
  { destruct (defaultOnIgnoreFunc p c) as [o c1] eqn:Hcall.
    pose proof (ignore_frame p c) as Hf. rewrite Hcall in Hf. simpl in Hf.
    destruct Hf as (-> & _ & _ & Hsame & _).
    rewrite (bind_returns _ _ _ _ _ Hcall). by apply round_silent. }
  case_match; [done|].
  destruct (entryTypeOf info) as [ty|]; [|by apply round_silent].
  destruct (IncludeEntryType (filter (Add c0)) ty); simpl; [|done].
  clear Hignore.
  apply round_hook; [| done | done |].
  { destruct (bool_decide (ty = TagFile));
      [apply hooklike_preAdd | apply hooklike_ret]. }
  intros pre c1.
  destruct (decisionOf pre); [|by apply round_silent..].
  destruct (newSourceStateEntry destAbsPath info (s !! p)) as [new|msg];
    [|by apply round_silent].
  apply round_hook; [| done | done |].
  { destruct (s !! p) as [o|]; [|apply hooklike_ret].
    destruct (dropsAttr new o); [apply hooklike_replace | apply hooklike_ret]. }
  intros rep c2. destruct (decisionOf rep); by apply round_silent.
Qed.

Lemma addAll_cons {S : Type} (options : AddOptions.t S) s destAbsPath info
    rest c o c1 :
  addOne options s destAbsPath info c = (o, c1) →
  addAll options s ((destAbsPath, info) :: rest) c
  = match o with
    | Returns (Some err, s1) => (Returns (Some err, s1), c1)
    | Returns (None, s1) => addAll options s1 rest c1
    | Panics msg => (Panics msg, c1)
    end.
Proof.
  intros Hone. simpl. destruct o as [[[err|] s1]|msg].
  - by rewrite (bind_returns _ _ _ _ _ Hone).
  - by rewrite (bind_returns _ _ _ _ _ Hone).
  - by rewrite (bind_panics _ _ _ _ _ Hone).
Qed.

(** A [quit] among the replies a batch takes ends the batch in exit code 0. *)
Lemma addAll_quit c0 psf observations (s : SourceState) c :
  ∃ l, consumes (addAll (addOptions c0 psf) s observations) c l
       ∧ (Got "quit" ∈ l →
          ∃ s', (addAll (addOptions c0 psf) s observations c).1
                = Returns (Some (ExitCodeError 0), s')).
Proof.
  unfold consumes.
  revert s c. induction observations as [|[destAbsPath info] rest IH];
    intros s c.
  { exists []. split; [done|]. by intros ?%elem_of_nil. }
  destruct (addOne (addOptions c0 psf) s destAbsPath info c) as [o c1]
    eqn:Hone.
  rewrite (addAll_cons _ _ _ _ _ _ _ _ Hone).
  pose proof (addOne_round c0 psf s destAbsPath info c) as Hround.
  rewrite Hone in Hround. destruct Hround as (l1 & Hl1 & Hquit & _).
  simpl in Hl1, Hquit.
  destruct o as [[[err|] s1]|msg].
  - exists l1. split; [done|]. intros Hin. exists s. by rewrite (Hquit Hin).
  - destruct (IH s1 c1) as (l2 & Hl2 & Hq2). exists (l1 ++ l2).
    split; [by rewrite Hl1, Hl2, app_assoc|].
    intros [Hin|Hin]%elem_of_app; [by specialize (Hquit Hin)|auto].
  - exists l1. split; [done|]. intros Hin. by specialize (Hquit Hin).
Qed.

Lemma runAddCmd_quit args (s : SourceState) c :
  ∃ l, consumes (runAddCmd args s) c l
       ∧ (Got "quit" ∈ l →
          ∃ s', (runAddCmd args s c).1 = Returns (Some (ExitCodeError 0), s')).
Proof.
  unfold consumes, runAddCmd, mbind, M_bind, get. simpl.
  destruct (destAbsPathInfos c s args _ _) as [infos|msg].
  2:{ exists []. split; [done|]. by intros ?%elem_of_nil. }
  destruct (persistentStateFile c) as [psf|msg].
  2:{ exists []. split; [done|]. by intros ?%elem_of_nil. }
  apply addAll_quit.
Qed.

Lemma answered_result (m : M Config (option error)) c a :
  hooklike m → answered m c a → (m c).1 = choiceResult a.
Proof.
  intros Hm Ha. unfold answered, consumes in Ha. simpl in Ha.
  destruct (Hm c) as [Hsame|(b & Hb & ->)].
  - rewrite Hsame in Ha. apply (f_equal length) in Ha. simpl in Ha. lia.
  - rewrite Hb in Ha. by injection Ha as ->.
Qed.

(** C2.  The reply [quit], at the pre-add prompt or at the replace prompt,
    makes the hook return [chezmoi.ExitCodeError(0)], the exit-code signal
    with code 0; and a run of [add] that has taken a [quit] from the user
    has stopped with that signal, which is reported as exit status 0. *)
Theorem quit_ends_run_with_success :
  (∀ c p fileInfo,
     answered (defaultPreAddFunc p fileInfo) c (Got "quit") →
     (defaultPreAddFunc p fileInfo c).1 = Returns (Some (ExitCodeError 0)))
  ∧ (∀ c p new old,
       answered (defaultReplaceFunc p new old) c (Got "quit") →
       (defaultReplaceFunc p new old c).1 = Returns (Some (ExitCodeError 0)))
  ∧ (∀ args (s : SourceState) c l,
       consumes (runAddCmd args s) c l → Got "quit" ∈ l →
       ∃ e s', (runAddCmd args s c).1 = Returns (e, s')
               ∧ e = Some (ExitCodeError 0) ∧ exitStatus e = 0).
Proof.
  split_and!.
  - intros c p fileInfo Hq.
    by rewrite (answered_result _ _ _ (hooklike_preAdd p fileInfo) Hq).
  - intros c p new old Hq.
    by rewrite (answered_result _ _ _ (hooklike_replace p new old) Hq).
  - intros args s c l Hl Hin.
    destruct (runAddCmd_quit args s c) as (l' & Hl' & Hquit).
    assert (l' = l) as ->.
    { unfold consumes in Hl, Hl'. rewrite Hl in Hl'.
      by apply app_inv_tail in Hl'. }
    destruct (Hquit Hin) as [s' Hs']. by exists (Some (ExitCodeError 0)), s'.
Qed.

(** C9.  The reply [no], at the pre-add prompt or at the replace prompt,
    makes the hook return [fs.SkipDir], which the loop reads as Skip; and a
    round of the loop whose last reply from the user is [no] ends without an
    error and with the source state as it was, so that the batch goes on with
    the next observation. *)
Theorem no_skips_entry :
  (∀ c p fileInfo,
     answered (defaultPreAddFunc p fileInfo) c (Got "no") →
     ∃ e, (defaultPreAddFunc p fileInfo c).1 = Returns e
          ∧ decisionOf e = Skip)
  ∧ (∀ c p new old,
       answered (defaultReplaceFunc p new old) c (Got "no") →
       ∃ e, (defaultReplaceFunc p new old c).1 = Returns e
            ∧ decisionOf e = Skip)
  ∧ (∀ c0 psf (s : SourceState) destAbsPath info rest c l,
       let options := addOptions c0 psf in
       let r := addOne options s destAbsPath info c in
       consumes (addOne options s destAbsPath info) c l →
       last l = Some (Got "no") →
       r.1 = Returns (None, s)
       ∧ addAll options s ((destAbsPath, info) :: rest) c
         = addAll options s rest r.2).
Proof.
  split_and!.
  - intros c p fileInfo Hq. exists (Some SkipDir).
    by rewrite (answered_result _ _ _ (hooklike_preAdd p fileInfo) Hq).
  - intros c p new old Hq. exists (Some SkipDir).
    by rewrite (answered_result _ _ _ (hooklike_replace p new old) Hq).
  - intros c0 psf s destAbsPath info rest c l options r Hl Hlast.
    subst options r.
    destruct (addOne_round c0 psf s destAbsPath info c) as (l' & Hl' & _ & Hno).
    assert (l' = l) as ->.
    { unfold consumes in Hl. rewrite Hl in Hl'. by apply app_inv_tail in Hl'. }
    specialize (Hno Hlast). split; [done|].
    destruct (addOne (addOptions c0 psf) s destAbsPath info c) as [o c1]
      eqn:Hone.
    rewrite (addAll_cons _ _ _ _ _ _ _ _ Hone).
    simpl in Hno. by rewrite Hno.
Qed.

Lemma entryTypeOf_regular info :
  fs.Type_ (fs.Mode info) = 0 → entryTypeOf info = Some TagFile.
Proof. intros Hreg. unfold entryTypeOf. simpl. by rewrite Hreg. Qed.

(** An error of the pre-capture hook, other than the skip, stops the round
    there: the error is returned and nothing is written. *)
Lemma addOne_pre_abort {S : Type} (options : AddOptions.t S)
    (s : SourceState) destAbsPath info c err c' :
  isProtected (AddOptions.ProtectedAbsPaths options) destAbsPath = false →
  fs.Type_ (fs.Mode info) = 0 →
  IncludeEntryType (AddOptions.Filter options) TagFile = true →
  AddOptions.PreAddFunc options (TrimDirPrefix destAbsPath) info c
  = (Returns (Some err), c') →
  err ≠ SkipDir →
  addOne options s destAbsPath info c = (Returns (Some err, s), c').
Proof.
  intros Hfree Hreg Hincl Hpre Herr. unfold addOne.
  rewrite Hfree, (entryTypeOf_regular _ Hreg), Hincl. simpl.
  rewrite (bind_returns _ _ _ _ _ Hpre).
  by destruct err.
Qed.

(** C1.  A regular file, scanned under severity [error] with neither
    [Encrypt] nor [force] set, whose content the detector flags: the hook
    returns [chezmoi.ExitCodeError(1)], the policy violation, without asking
    the user anything and without touching the flags; and the batch that
    reaches this file stops there with that error and the source state it
    had, so that nothing is written for the file. *)
Theorem secret_finding_aborts_capture
    (c : Config) (p : RelPath) (fileInfo : fs.FileInfo)
    (content : string) (detector : Detector) :
  Secrets (Add c) = severityError →
  fs.Type_ (fs.Mode fileInfo) = 0 →
  Encrypt (Add c) = false →
  force c = false →
  destSystem c (Join (DestDirAbsPath c) p) = Got content →
  gitleaksDetector c = Got detector →
  detector content ≠ [] →
  let r := defaultPreAddFunc p fileInfo c in
  r.1 = Returns (Some PolicyViolationError)
  ∧ decisionOf (Some PolicyViolationError) = Abort PolicyViolationError
  ∧ prompts (trace r.2) = prompts (trace c)
  ∧ replies r.2 = replies c
  ∧ Add r.2 = Add c ∧ force r.2 = force c
  ∧ ∀ c0 psf (s : SourceState) destAbsPath rest,
      TrimDirPrefix destAbsPath = p →
      isProtected (AddOptions.ProtectedAbsPaths (addOptions c0 psf))
        destAbsPath = false →
      IncludeEntryType (filter (Add c0)) TagFile = true →
      addAll (addOptions c0 psf) s ((destAbsPath, fileInfo) :: rest) c
      = (Returns (Some PolicyViolationError, s), r.2).
Proof.
  intros Hsev Hreg Hplain Hforce Hread Hdet Hfound. cbv zeta.
  assert (scansContent c fileInfo = true) as Hon.
  { apply scansContent_enabled. by rewrite Hsev. }
  assert (violatesPolicy c (detector content) = true) as Hviol.
  { unfold violatesPolicy. rewrite Hforce. simpl.
    rewrite (bool_decide_eq_true_2 _ Hsev). simpl.
    apply bool_decide_eq_true_2.
    destruct (detector content); [done|simpl; lia]. }
  pose proof (preAdd_unfold _ _ _ _ _
                (scan_done p fileInfo c content detector Hon Hread Hdet))
    as Hhook.
  rewrite Hviol in Hhook.
  split_and!; try (by rewrite Hhook); [done| |].
  - rewrite Hhook. simpl. rewrite prompts_app. simpl.
    by rewrite prompts_reports, app_nil_r.
  - intros c0 psf s destAbsPath rest Hp Hfree Hincl.
    assert (addOne (addOptions c0 psf) s destAbsPath fileInfo c
            = (Returns (Some PolicyViolationError, s),
               (defaultPreAddFunc p fileInfo c).2)) as Hone.
    { apply addOne_pre_abort; try done. simpl. rewrite Hp.
      by rewrite Hhook. }
    by rewrite (addAll_cons _ _ _ _ _ _ _ _ Hone).
Qed.

End Run.

(** ** The properties at work on the sample run *)

Section Witnesses.
Import chezmoi cmd.

Lemma secret_finding_aborts_capture_witness :
  (@defaultPreAddFunc Sample.paths "id_rsa" (Sample.regular "id_rsa")
     Sample.strict).1
  = Returns (Some PolicyViolationError)
  ∧ (@addAll Sample.paths Config
       (@addOptions Sample.paths Sample.helpers Sample.strict "/cfg/state")
       Sample.source
       [("/home/id_rsa", Sample.regular "id_rsa");
        ("/home/notes", Sample.regular "notes")] Sample.strict).1
    = Returns (Some PolicyViolationError, Sample.source).
Proof.
  destruct (@secret_finding_aborts_capture Sample.paths Sample.helpers
              Sample.strict "id_rsa" (Sample.regular "id_rsa") "KEY"
              Sample.detector)
    as (Hhook & _ & _ & _ & _ & _ & Hrun);
    [reflexivity | reflexivity | reflexivity | reflexivity | reflexivity
    | reflexivity | discriminate |].
  split; [exact Hhook|].
  exact (f_equal fst
           (Hrun Sample.strict "/cfg/state" Sample.source "/home/id_rsa"
              [("/home/notes", Sample.regular "notes")]
              eq_refl eq_refl eq_refl)).
Defined.

(** [id_rsa] is added (yes, and yes to the loss of its attributes), then the
    user quits at [notes]. *)
Lemma quit_ends_run_with_success_witness :
  (@defaultPreAddFunc Sample.paths "notes" (Sample.regular "notes")
     (Sample.asking [Got "quit"])).1
  = Returns (Some (ExitCodeError 0))
  ∧ ∃ e s',
      (@runAddCmd Sample.paths Sample.helpers ["/home/notes"; "/home/id_rsa"]
         Sample.source
         (Sample.asking [Got "yes"; Got "yes"; Got "quit"; Got "no"])).1
      = Returns (e, s')
      ∧ e = Some (ExitCodeError 0) ∧ exitStatus e = 0.
Proof.
  split.
  - apply (proj1 (@quit_ends_run_with_success Sample.paths Sample.helpers)).
    vm_compute. reflexivity.
  - apply (proj2 (proj2 (@quit_ends_run_with_success Sample.paths Sample.helpers))
             ["/home/notes"; "/home/id_rsa"] Sample.source
             (Sample.asking [Got "yes"; Got "yes"; Got "quit"; Got "no"])
             [Got "yes"; Got "yes"; Got "quit"]).
    + vm_compute. reflexivity.
    + rewrite !elem_of_cons. auto.
Defined.

Lemma replace_prompts_only_when_attribute_dropped_witness :
  ∃ text,
    prompts (trace (@defaultReplaceFunc Sample.helpers "id_rsa"
                      (Sample.entry "id_rsa" Sample.noAttr)
                      (Sample.entry "id_rsa" Sample.privateTemplate)
                      (Sample.asking [Got "yes"])).2)
    = prompts (trace (Sample.asking [Got "yes"])) ++ [text].
Proof.
  apply (proj2 (proj2 (@replace_prompts_only_when_attribute_dropped
                         Sample.helpers (Sample.asking [Got "yes"]) "id_rsa"
                         (Sample.entry "id_rsa" Sample.noAttr)
                         (Sample.entry "id_rsa" Sample.privateTemplate)))).
  - reflexivity.
  - split_and!; [by eexists | by eexists | reflexivity].
Defined.

Lemma replace_all_ends_replace_prompts_witness :
  answered (@defaultReplaceFunc Sample.helpers "id_rsa"
              (Sample.entry "id_rsa" Sample.noAttr)
              (Sample.entry "id_rsa" Sample.privateTemplate))
    (Sample.asking [Got "all"; Got "no"]) (Got "all")
  ∧ force (@defaultReplaceFunc Sample.helpers "id_rsa"
             (Sample.entry "id_rsa" Sample.noAttr)
             (Sample.entry "id_rsa" Sample.privateTemplate)
             (Sample.asking [Got "all"; Got "no"])).2 = true.
Proof.
  assert (answered (@defaultReplaceFunc Sample.helpers "id_rsa"
                      (Sample.entry "id_rsa" Sample.noAttr)
                      (Sample.entry "id_rsa" Sample.privateTemplate))
            (Sample.asking [Got "all"; Got "no"]) (Got "all")) as Hall
    by (vm_compute; reflexivity).
  split; [exact Hall|].
  apply (@replace_all_ends_replace_prompts Sample.paths Sample.helpers
           _ _ _ _ Hall).
Defined.

(** After [all] at the replace prompt, [id_rsa] passes the scan under
    severity [error] although the detector flags it. *)
Lemma replace_all_suppresses_policy_abort_witness :
  (@defaultPreAddFunc Sample.paths "id_rsa" (Sample.regular "id_rsa")
     (@defaultReplaceFunc Sample.helpers "notes"
        (Sample.entry "notes" Sample.noAttr)
        (Sample.entry "notes" Sample.privateTemplate)
        (Sample.config (Sample.add severityError false false false) false
           [Got "all"])).2).1
  ≠ Returns (Some PolicyViolationError).
Proof.
  refine (proj2 (proj2 (@replace_all_suppresses_policy_abort
                          Sample.paths Sample.helpers
                          (Sample.config
                             (Sample.add severityError false false false)
                             false [Got "all"])
                          "notes" (Sample.entry "notes" Sample.noAttr)
                          (Sample.entry "notes" Sample.privateTemplate) _)
                  _ (rtc_refl _ _))
            "id_rsa" (Sample.regular "id_rsa")).
  vm_compute. reflexivity.
Defined.

Lemma scans_iff_enabled_regular_unencrypted_witness :
  reads (trace (@defaultPreAddFunc Sample.paths "id_rsa"
                  (Sample.regular "id_rsa") Sample.strict).2)
  = ["/home/id_rsa"]
  ∧ (@defaultPreAddFunc Sample.paths "id_rsa" (Sample.regular "id_rsa")
       Sample.encrypting).1
    ≠ Returns (Some PolicyViolationError).
Proof.
  split.
  - apply (proj1 (@scans_iff_enabled_regular_unencrypted Sample.paths
                    Sample.strict "id_rsa" (Sample.regular "id_rsa"))).
    split_and!; [discriminate | reflexivity | reflexivity].
  - apply (proj2 (proj2 (proj2 (@scans_iff_enabled_regular_unencrypted
                                  Sample.paths Sample.encrypting "id_rsa"
                                  (Sample.regular "id_rsa"))))).
    reflexivity.
Defined.

(** After [all] at the pre-add prompt, and a replacement the user declines,
    the next candidate is added without a question. *)
Lemma add_all_ends_add_prompts_witness :
  replies (@defaultPreAddFunc Sample.paths "notes" (Sample.regular "notes")
             (@defaultReplaceFunc Sample.helpers "id_rsa"
                (Sample.entry "id_rsa" Sample.noAttr)
                (Sample.entry "id_rsa" Sample.privateTemplate)
                (@defaultPreAddFunc Sample.paths "id_rsa"
                   (Sample.regular "id_rsa")
                   (Sample.asking [Got "all"; Got "no"; Got "yes"])).2).2).2
  = [Got "yes"].
Proof.
  refine (eq_trans
            (proj2 (proj2 (proj2 (@add_all_ends_add_prompts
                                    Sample.paths Sample.helpers
                                    (Sample.asking
                                       [Got "all"; Got "no"; Got "yes"])
                                    "id_rsa" (Sample.regular "id_rsa") _))
                      _ (rtc_once _ _ (step_Replace "id_rsa"
                                         (Sample.entry "id_rsa" Sample.noAttr)
                                         (Sample.entry "id_rsa"
                                            Sample.privateTemplate) _))
                      "notes" (Sample.regular "notes")))
            _).
  - vm_compute. reflexivity.
  - vm_compute. reflexivity.
Defined.

(** The user declines the replacement of [id_rsa]; the batch goes on with
    [notes]. *)
Lemma no_skips_entry_witness :
  (@addOne Sample.paths Config
     (@addOptions Sample.paths Sample.helpers Sample.strict "/cfg/state")
     Sample.source "/home/id_rsa" (Sample.regular "id_rsa")
     (Sample.asking [Got "yes"; Got "no"; Got "yes"])).1
  = Returns (None, Sample.source).
Proof.
  apply (proj2 (proj2 (@no_skips_entry Sample.paths Sample.helpers))
           Sample.strict "/cfg/state" Sample.source "/home/id_rsa"
           (Sample.regular "id_rsa") [("/home/notes", Sample.regular "notes")]
           (Sample.asking [Got "yes"; Got "no"; Got "yes"])
           [Got "yes"; Got "no"]).
  - vm_compute. reflexivity.
  - reflexivity.
Defined.

End Witnesses.

(* ===================================================================== *)
(** * More about the code                                                 *)
(* ===================================================================== *)

(** ** [Keys] and [SortedKeys] *)

Section KeysMore.
Context {K : Type} (R : relation K) `{!RelDecision R}.

(** [Keys] walks the map once: it returns as many keys as the map has
    entries, the [i]-th key being the key of the [i]-th entry visited; a key
    is returned exactly if the map holds it, and no key comes twice. *)
Theorem Keys_visits_each_entry {V : Type} (m : gomap K V) :
  length (chezmoimaps.Keys m) = length m
  ∧ (∀ i, chezmoimaps.Keys m !! i = fst <$> m !! i)
  ∧ (∀ k, k ∈ chezmoimaps.Keys m ↔ ∃ v, (k, v) ∈ m)
  ∧ (gomap_wf m → NoDup (chezmoimaps.Keys m)).
Proof.
  rewrite Keys_fst. split_and!.
  - apply length_fmap.
  - intros i. apply list_lookup_fmap.
  - intros k. rewrite list_elem_of_fmap. split.
    + intros ([k' v] & -> & Hin). by exists v.
    + intros [v Hin]. by exists (k, v).
  - done.
Qed.

Lemma Sort_StronglySorted `{!PartialOrder R, !Total R} (l : list K) :
  StronglySorted R (slices.Sort R l).
Proof.
  apply Sorted_StronglySorted; [apply _|]. apply Sort_Sorted; apply _.
Qed.

(** Two sorted lists with the same elements are the same list. *)
Lemma sorted_same `{!PartialOrder R} (l1 l2 : list K) :
  StronglySorted R l1 → StronglySorted R l2 → l1 ≡ₚ l2 → l1 = l2.
Proof. apply (StronglySorted_unique R). Qed.

Lemma SortedKeys_Permutation {V : Type} (m : gomap K V) :
  chezmoimaps.SortedKeys R m ≡ₚ m.*1.
Proof.
  unfold chezmoimaps.SortedKeys. simpl. by rewrite Sort_Permutation, Keys_fst.
Qed.

Lemma StronglySorted_strict `{!PartialOrder R} (l : list K) :
  StronglySorted R l → NoDup l → StronglySorted (strict R) l.
Proof.
  induction 1 as [|x l Hl IH Hx]; intros Hnd; [constructor|].
  apply NoDup_cons in Hnd as [Hnotin Hnd].
  constructor; [by apply IH|].
  rewrite Forall_forall in Hx |- *. intros y Hy.
  apply strict_spec_alt. split; [by apply Hx|].
  intros ->. done.
Qed.

(** [SortedKeys] returns as many keys as the map has entries; for a map (no
    key twice) no key comes twice in the result, and the result is strictly
    increasing: every key is below every later one, and differs from it. *)
Theorem SortedKeys_strictly_increasing `{!PartialOrder R, !Total R}
    {V : Type} (m : gomap K V) :
  length (chezmoimaps.SortedKeys R m) = length m
  ∧ (gomap_wf m →
     NoDup (chezmoimaps.SortedKeys R m)
     ∧ StronglySorted (strict R) (chezmoimaps.SortedKeys R m)).
Proof.
  split.
  - by rewrite (SortedKeys_Permutation m), length_fmap.
  - intros Hwf.
    assert (NoDup (chezmoimaps.SortedKeys R m)) as Hnd
      by (by rewrite (SortedKeys_Permutation m)).
    split; [done|]. apply StronglySorted_strict; [|done].
    apply Sort_StronglySorted.
Qed.

(** The first key [SortedKeys] returns is the least key of the map and the
    last one the greatest; the result is empty only for the empty map. *)
Theorem SortedKeys_ends `{!PartialOrder R, !Total R}
    {V : Type} (m : gomap K V) :
  (∀ k, head (chezmoimaps.SortedKeys R m) = Some k →
        has_key m k ∧ ∀ k', has_key m k' → R k k')
  ∧ (∀ k, last (chezmoimaps.SortedKeys R m) = Some k →
          has_key m k ∧ ∀ k', has_key m k' → R k' k)
  ∧ (chezmoimaps.SortedKeys R m = [] ↔ m = []).
Proof.
  pose proof (SortedKeys_Permutation m) as Hperm.
  pose proof (Sort_StronglySorted (chezmoimaps.Keys m)) as Hsorted.
  change (slices.Sort R (chezmoimaps.Keys m))
    with (chezmoimaps.SortedKeys R m) in Hsorted.
  unfold has_key. split_and!.
  - intros k [l Hl]%head_Some. rewrite Hl in Hperm, Hsorted.
    split; [rewrite <-Hperm; by left|].
    intros k'. rewrite <-Hperm. intros [->|Hin]%elem_of_cons; [done|].
    apply StronglySorted_inv in Hsorted as [_ Hall].
    rewrite Forall_forall in Hall. by apply Hall.
  - intros k [l Hl]%last_Some. rewrite Hl in Hperm, Hsorted.
    split; [rewrite <-Hperm, elem_of_app, list_elem_of_singleton; by right|].
    intros k'. rewrite <-Hperm.
    intros [Hin|Heq%list_elem_of_singleton]%elem_of_app; [|by subst].
    apply (StronglySorted_app_1_elem_of _ _ _ _ _ Hsorted Hin).
    by apply list_elem_of_singleton.
  - split.
    + intros Hnil. rewrite Hnil in Hperm. symmetry in Hperm.
      apply Permutation_nil_r in Hperm. by apply fmap_nil_inv in Hperm.
    + by intros ->.
Qed.

(** Adding an entry with key [k] to a map, wherever the entry lands in the
    walk, puts [k] at its place in the sorted keys. *)
Theorem SortedKeys_add_entry `{!PartialOrder R, !Total R}
    {V : Type} (m1 m2 : gomap K V) (k : K) (v : V) :
  chezmoimaps.SortedKeys R (m1 ++ (k, v) :: m2)
  = slices.insert R k (chezmoimaps.SortedKeys R (m1 ++ m2)).
Proof.
  apply sorted_same.
  - apply Sort_StronglySorted.
  - apply Sorted_StronglySorted; [apply _|].
    apply insert_Sorted; [apply _|]. apply Sort_Sorted; apply _.
  - rewrite insert_Permutation, !SortedKeys_Permutation.
    rewrite !fmap_app, fmap_cons. simpl.
    by rewrite <-Permutation_middle.
Qed.

Lemma filter_fst {V : Type} (P : K → Prop) `{!∀ k, Decision (P k)}
    (m : gomap K V) :
  (filter (λ kv, P kv.1) m).*1 = filter P (m.*1).
Proof.
  induction m as [|[k v] m IH]; [done|].
  rewrite fmap_cons. simpl. destruct (decide (P k)).
  - rewrite (filter_cons_True _ (k, v)), (filter_cons_True P k) by done.
    rewrite fmap_cons. simpl. by f_equal.
  - by rewrite (filter_cons_False _ (k, v)), (filter_cons_False P k).
Qed.

Lemma StronglySorted_filter (P : K → Prop) `{!∀ k, Decision (P k)}
    (l : list K) :
  StronglySorted R l → StronglySorted R (filter P l).
Proof.
  induction 1 as [|x l Hl IH Hx]; [constructor|].
  rewrite filter_cons. destruct (decide (P x)); [|done].
  constructor; [done|].
  rewrite Forall_forall in Hx |- *.
  intros y [_ Hy]%list_elem_of_filter. by apply Hx.
Qed.

(** Deleting the entry of key [k] from a map removes [k] from the sorted
    keys and leaves the others where they were. *)
Theorem SortedKeys_delete_key `{!PartialOrder R, !Total R, !EqDecision K}
    {V : Type} (m : gomap K V) (k : K) :
  chezmoimaps.SortedKeys R (filter (λ kv, kv.1 ≠ k) m)
  = filter (λ k', k' ≠ k) (chezmoimaps.SortedKeys R m).
Proof.
  apply sorted_same.
  - apply Sort_StronglySorted.
  - apply StronglySorted_filter, Sort_StronglySorted.
  - rewrite !SortedKeys_Permutation.
    by rewrite <-(filter_fst (λ k', k' ≠ k) m).
Qed.

(** A map that happens to be walked in ascending order of its keys has its
    [Keys] returned as they are; and sorting sorted keys again changes
    nothing. *)
Theorem SortedKeys_of_sorted_walk `{!PartialOrder R, !Total R}
    {V : Type} (m : gomap K V) :
  (Sorted R (chezmoimaps.Keys m) →
   chezmoimaps.SortedKeys R m = chezmoimaps.Keys m)
  ∧ slices.Sort R (chezmoimaps.SortedKeys R m) = chezmoimaps.SortedKeys R m.
Proof.
  split.
  - intros Hsorted. apply sorted_same.
    + apply Sort_StronglySorted.
    + by apply Sorted_StronglySorted; [apply _|].
    + by rewrite SortedKeys_Permutation, Keys_fst.
  - apply sorted_same.
    + apply Sort_StronglySorted.
    + apply Sort_StronglySorted.
    + apply Sort_Permutation.
Qed.

(** The sorted keys of two maps put together are the sorted keys of each,
    merged. *)
Theorem SortedKeys_union `{!PartialOrder R, !Total R}
    {V : Type} (m1 m2 : gomap K V) :
  chezmoimaps.SortedKeys R (m1 ++ m2)
  = list_merge R (chezmoimaps.SortedKeys R m1) (chezmoimaps.SortedKeys R m2).
Proof.
  apply sorted_same.
  - apply Sort_StronglySorted.
  - apply Sorted_StronglySorted; [apply _|].
    apply Sorted_list_merge; [apply _| |]; apply Sort_Sorted; apply _.
  - rewrite merge_Permutation, !SortedKeys_Permutation. by rewrite fmap_app.
Qed.

End KeysMore.

(** ** More on the pre-add hook *)

Section PreAddMore.
Import chezmoi cmd.
Context `{!chezmoi.Externals, !cmd.Externals}.

Lemma messages_reports absPath (findings : list Finding) :
  messages ((λ x, EvErrorf (report absPath x)) <$> findings)
  = report absPath <$> findings.
Proof. induction findings as [|x l IH]; [done|]. simpl. by f_equal. Qed.

Lemma confirm_messages p c :
  messages (trace (confirmAdd p c).2) = messages (trace c).
Proof.
  destruct (prompt (Add c)) eqn:Hon.
  2:{ by rewrite !confirm_off. }
  destruct (replies c) as [|a rs] eqn:Hreply.
  { rewrite !confirm_eof by done. simpl. by rewrite messages_app, app_nil_r. }
  rewrite (confirm_reply p c a rs) by done.
  case_bool_decide; simpl; by rewrite messages_app, app_nil_r.
Qed.

(** The hook, once it has put its prompt and got the reply [a]. *)
Lemma preAdd_answered p fileInfo c a :
  answered (defaultPreAddFunc p fileInfo) c a →
  ∃ evs rs,
    replies c = a :: rs ∧ prompt (Add c) = true ∧ prompts evs = []
    ∧ defaultPreAddFunc p fileInfo c
      = (choiceResult a,
         (if bool_decide (a = Got "all") then set_prompt false else id)
           (set_replies rs
              (set_trace (trace c ++ evs ++ [addPrompt c p]) c))).
Proof.
  intros Ha. unfold answered, consumes in Ha. simpl in Ha.
  destruct (scan_frame p fileInfo c) as (r & evs & Hscan & Hevs & _).
  rewrite (preAdd_unfold _ _ _ _ _ Hscan) in Ha |- *.
  destruct r as [err|].
  { simpl in Ha. apply (f_equal length) in Ha. simpl in Ha. lia. }
  set (c1 := set_trace (trace c ++ evs) c) in *.
  destruct (prompt (Add c)) eqn:Hon.
  2:{ rewrite confirm_off in Ha by done. simpl in Ha.
      apply (f_equal length) in Ha. simpl in Ha. lia. }
  destruct (replies c) as [|b rs] eqn:Hreply.
  { rewrite confirm_eof in Ha by done. simpl in Ha.
    rewrite Hreply in Ha. done. }
  rewrite (confirm_reply p c1 b rs) in Ha |- * by done.
  assert (b = a) as ->.
  { destruct (bool_decide (b = Got "all")); simpl in Ha; congruence. }
  exists evs, rs. split_and!; try done.
  subst c1. unfold addPrompt. simpl. by rewrite <-app_assoc.
Qed.

(** When the candidate's content cannot be read, the hook returns the error
    of the file system as it is: the detector is not called, nothing is
    written to the error stream, the user is not asked, and no flag moves. *)
Theorem read_failure_is_returned
    (c : Config) (p : RelPath) (fileInfo : fs.FileInfo) (msg : string) :
  Secrets (Add c) ≠ severityIgnore →
  fs.Type_ (fs.Mode fileInfo) = 0 →
  Encrypt (Add c) = false →
  destSystem c (Join (DestDirAbsPath c) p) = Failed msg →
  let r := defaultPreAddFunc p fileInfo c in
  r = (Returns (Some (IOError msg)),
       set_trace (trace c ++ [EvReadFile (Join (DestDirAbsPath c) p)]) c)
  ∧ scans (trace r.2) = scans (trace c)
  ∧ messages (trace r.2) = messages (trace c)
  ∧ prompts (trace r.2) = prompts (trace c)
  ∧ replies r.2 = replies c.
Proof.
  intros Hsev Hreg Hplain Hread. cbv zeta.
  assert (scansContent c fileInfo = true) as Hon
    by (by apply scansContent_enabled).
  rewrite (preAdd_unfold _ _ _ _ _ (scan_read_failed _ _ _ msg Hon Hread)).
  simpl. by rewrite scans_app, messages_app, prompts_app, !app_nil_r.
Qed.

(** When the content is read and the secret detector cannot be had, the hook
    returns that error as it is: nothing is scanned, nothing is written to
    the error stream, the user is not asked, and no flag moves. *)
Theorem detector_failure_is_returned
    (c : Config) (p : RelPath) (fileInfo : fs.FileInfo)
    (content msg : string) :
  Secrets (Add c) ≠ severityIgnore →
  fs.Type_ (fs.Mode fileInfo) = 0 →
  Encrypt (Add c) = false →
  destSystem c (Join (DestDirAbsPath c) p) = Got content →
  gitleaksDetector c = Failed msg →
  let r := defaultPreAddFunc p fileInfo c in
  r = (Returns (Some (IOError msg)),
       set_trace (trace c ++ [EvReadFile (Join (DestDirAbsPath c) p)]) c)
  ∧ scans (trace r.2) = scans (trace c)
  ∧ messages (trace r.2) = messages (trace c)
  ∧ prompts (trace r.2) = prompts (trace c)
  ∧ replies r.2 = replies c.
Proof.
  intros Hsev Hreg Hplain Hread Hdet. cbv zeta.
  assert (scansContent c fileInfo = true) as Hon
    by (by apply scansContent_enabled).
  rewrite (preAdd_unfold _ _ _ _ _
             (scan_detector_failed _ _ _ content msg Hon Hread Hdet)).
  simpl. by rewrite scans_app, messages_app, prompts_app, !app_nil_r.
Qed.

(** Every finding of a scan is written to the error stream, once, in the
    order the detector gave them, whatever the severity and whether or not
    [force] is set; the line printed is the finding's [StartLine] plus one. *)
Theorem findings_reported_once_in_order
    (c : Config) (p : RelPath) (fileInfo : fs.FileInfo)
    (content : string) (detector : Detector) :
  Secrets (Add c) ≠ severityIgnore →
  fs.Type_ (fs.Mode fileInfo) = 0 →
  Encrypt (Add c) = false →
  destSystem c (Join (DestDirAbsPath c) p) = Got content →
  gitleaksDetector c = Got detector →
  let r := defaultPreAddFunc p fileInfo c in
  let absPath := Join (DestDirAbsPath c) p in
  messages (trace r.2)
  = messages (trace c) ++ (report absPath <$> detector content)
  ∧ ∀ finding,
      - 2 ^ 63 ≤ StartLine finding < 2 ^ 63 - 1 →
      report absPath finding
      = absPath +:+ ":" +:+ pretty (StartLine finding + 1) +:+ ": "
        +:+ Description finding +:+ nl.
Proof.
  intros Hsev Hreg Hplain Hread Hdet. cbv zeta.
  assert (scansContent c fileInfo = true) as Hon
    by (by apply scansContent_enabled).
  rewrite (preAdd_unfold _ _ _ _ _
             (scan_done _ _ _ content detector Hon Hread Hdet)).
  split.
  - match goal with
    | |- context [set_trace ?t c] => set (c1 := set_trace t c)
    end.
    assert (messages (trace c1)
            = messages (trace c)
              ++ (report (Join (DestDirAbsPath c) p) <$> detector content))
      as Hc1.
    { subst c1. simpl. rewrite messages_app. simpl.
      by rewrite messages_reports. }
    destruct (violatesPolicy c (detector content)); simpl; [done|].
    by rewrite confirm_messages.
  - intros finding Hrange. unfold report, int_wrap.
    replace ((StartLine finding + 1 + 2 ^ 63) `mod` 2 ^ 64 - 2 ^ 63)
      with (StartLine finding + 1); [done|].
    rewrite Z.mod_small by lia. lia.
Qed.

(** The hook ends in exit code 1 only for what the policy forbids: [force]
    is not set, the severity is [error], the candidate is a regular file that
    is not to be encrypted, its content was read, and the detector flagged
    it. *)
Theorem policy_abort_only_for_flagged_content
    (c : Config) (p : RelPath) (fileInfo : fs.FileInfo) :
  (defaultPreAddFunc p fileInfo c).1 = Returns (Some (ExitCodeError 1)) →
  force c = false
  ∧ Secrets (Add c) = severityError
  ∧ fs.Type_ (fs.Mode fileInfo) = 0
  ∧ Encrypt (Add c) = false
  ∧ ∃ content detector,
      destSystem c (Join (DestDirAbsPath c) p) = Got content
      ∧ gitleaksDetector c = Got detector
      ∧ detector content ≠ [].
Proof.
  destruct (scansContent c fileInfo) eqn:Hon.
  2:{ rewrite (preAdd_unfold _ _ _ _ _ (scan_off p fileInfo c Hon)).
      intros Hr. by apply confirm_not_violation in Hr. }
  destruct (destSystem c (Join (DestDirAbsPath c) p)) as [content|msg]
    eqn:Hread.
  2:{ by rewrite (preAdd_unfold _ _ _ _ _
                    (scan_read_failed _ _ _ msg Hon Hread)). }
  destruct (gitleaksDetector c) as [detector|msg] eqn:Hdet.
  2:{ by rewrite (preAdd_unfold _ _ _ _ _
                    (scan_detector_failed _ _ _ content msg Hon Hread Hdet)). }
  rewrite (preAdd_unfold _ _ _ _ _
             (scan_done _ _ _ content detector Hon Hread Hdet)).
  destruct (violatesPolicy c (detector content)) eqn:Hviol.
  2:{ intros Hr. by apply confirm_not_violation in Hr. }
  intros _.
  apply scansContent_enabled in Hon as (_ & Hreg & Hplain).
  unfold violatesPolicy in Hviol.
  apply andb_true_iff in Hviol as [[Hforce Hsev]%andb_true_iff Hlen].
  apply negb_true_iff in Hforce. apply bool_decide_eq_true in Hsev, Hlen.
  split_and!; try done.
  exists content, detector. split_and!; try done.
  intros Hnil. rewrite Hnil in Hlen. simpl in Hlen. lia.
Qed.

(** With prompting off, a candidate that is not scanned (scanning off, or not
    a regular file, or to be encrypted) goes through the hook untouched: the
    hook returns [nil] and does nothing at all. *)
Theorem nothing_to_do_is_a_noop
    (c : Config) (p : RelPath) (fileInfo : fs.FileInfo) :
  prompt (Add c) = false →
  Secrets (Add c) = severityIgnore ∨ fs.Type_ (fs.Mode fileInfo) ≠ 0
  ∨ Encrypt (Add c) = true →
  defaultPreAddFunc p fileInfo c = (Returns None, c).
Proof.
  intros Hoff Hskip.
  assert (scansContent c fileInfo = false) as Hscan.
  { apply not_true_iff_false. rewrite scansContent_enabled.
    intros (? & ? & Hplain). destruct Hskip as [?|[?|Henc]]; try done.
    congruence. }
  rewrite (preAdd_unfold _ _ _ _ _ (scan_off p fileInfo c Hscan)).
  by apply confirm_off.
Qed.

(** The reply [yes] lets this one entry through and changes no flag: the
    hook returns [nil], [prompt] stays on and [force] stays as it was, so the
    next entry is asked about again. *)
Theorem add_yes_keeps_asking
    (c : Config) (p : RelPath) (fileInfo : fs.FileInfo) :
  answered (defaultPreAddFunc p fileInfo) c (Got "yes") →
  let r := defaultPreAddFunc p fileInfo c in
  r.1 = Returns None
  ∧ Add r.2 = Add c ∧ prompt (Add r.2) = true ∧ force r.2 = force c.
Proof.
  intros Ha. cbv zeta.
  destruct (preAdd_answered _ _ _ _ Ha) as (evs & rs & _ & Hon & _ & ->).
  simpl. by rewrite Hon.
Qed.

(** Whatever the hook does, it lets the configuration be, but for [prompt],
    which it switches off, and only on the reply [all]: [force], the other
    [add] options, the directories, the file system and the detector stay as
    they were; the trace only grows, and at most one reply is taken. *)
Theorem preAdd_changes_only_prompt
    (c : Config) (p : RelPath) (fileInfo : fs.FileInfo) :
  let r := defaultPreAddFunc p fileInfo c in
  ∃ evs l,
    (length l ≤ 1)%nat
    ∧ replies c = l ++ replies r.2
    ∧ r.2 = (if bool_decide (l = [Got "all"]) then set_prompt false else id)
              (set_replies (replies r.2) (set_trace (trace c ++ evs) c)).
Proof.
  cbv zeta.
  destruct (scan_frame p fileInfo c) as (r & evs & Hscan & Hevs & _).
  rewrite (preAdd_unfold _ _ _ _ _ Hscan).
  destruct r as [err|].
  { exists evs, []. simpl. split_and!; [lia|done|]. by destruct c. }
  set (c1 := set_trace (trace c ++ evs) c).
  destruct (prompt (Add c)) eqn:Hon.
  2:{ rewrite confirm_off by done. exists evs, []. simpl.
      split_and!; [lia|done|]. by destruct c. }
  destruct (replies c) as [|a rs] eqn:Hreply.
  { rewrite confirm_eof by done. exists (evs ++ [addPrompt c1 p]), []. simpl.
    split_and!; [lia|done|]. rewrite Hreply, app_assoc.
    subst c1. destruct c. simpl in *. by subst. }
  rewrite (confirm_reply p c1 a rs) by done.
  exists (evs ++ [addPrompt c1 p]), [a].
  assert (bool_decide ([a] = [Got "all"]) = bool_decide (a = Got "all")) as ->.
  { apply bool_decide_ext. split; [by intros [= ->]|by intros ->]. }
  destruct (bool_decide (a = Got "all")); simpl;
    (split_and!; [lia|done|]); by rewrite app_assoc.
Qed.

(** The hook asks at most once, and asking is the last thing it does: when
    [prompt] is on and the scan has not ended in an error, the trace ends with
    the prompt ["add "] followed by the path under the source directory, with
    the choices yes, no, all and quit; otherwise no prompt is put. *)
Theorem preAdd_asks_once_at_the_end
    (c : Config) (p : RelPath) (fileInfo : fs.FileInfo) :
  let r := defaultPreAddFunc p fileInfo c in
  let asks :=
    prompt (Add c) = true ∧ (scanForSecrets p fileInfo c).1 = Returns None in
  (asks →
   prompts (trace r.2)
   = prompts (trace c) ++ ["add " +:+ Join (SourceDirAbsPath c) p]
   ∧ last (trace r.2)
     = Some (EvPromptChoice ("add " +:+ Join (SourceDirAbsPath c) p)
               ["yes"; "no"; "all"; "quit"]))
  ∧ (¬ asks →
     prompts (trace r.2) = prompts (trace c) ∧ replies r.2 = replies c).
Proof.
  cbv zeta.
  destruct (scan_frame p fileInfo c) as (r & evs & Hscan & Hevs & _).
  rewrite (preAdd_unfold _ _ _ _ _ Hscan), Hscan. simpl.
  destruct r as [err|]; simpl.
  { split; [by intros [_ [=]]|]. intros _.
    by rewrite prompts_app, Hevs, app_nil_r. }
  set (c1 := set_trace (trace c ++ evs) c).
  destruct (prompt (Add c)) eqn:Hon.
  2:{ rewrite confirm_off by done. simpl. split; [by intros [[=] _]|].
      intros _. by rewrite prompts_app, Hevs, app_nil_r. }
  split; [intros _|by intros []].
  destruct (replies c) as [|a rs] eqn:Hreply.
  - rewrite confirm_eof by done. simpl.
    rewrite !prompts_app, Hevs, app_nil_r. split; [done|].
    by rewrite last_snoc.
  - rewrite (confirm_reply p c1 a rs) by done.
    destruct (bool_decide (a = Got "all")); simpl;
      rewrite !prompts_app, Hevs, app_nil_r; (split; [done|]);
      by rewrite last_snoc.
Qed.

(** The reply [all] at the pre-add prompt stops the questions, not the
    policy: [force] is left as it was, so a later regular file that the
    detector flags under severity [error] still ends in exit code 1. *)
Theorem add_all_keeps_the_policy
    (c : Config) (p : RelPath) (fileInfo : fs.FileInfo)
    (p' : RelPath) (fileInfo' : fs.FileInfo)
    (content : string) (detector : Detector) :
  answered (defaultPreAddFunc p fileInfo) c (Got "all") →
  force c = false →
  Secrets (Add c) = severityError →
  Encrypt (Add c) = false →
  fs.Type_ (fs.Mode fileInfo') = 0 →
  destSystem c (Join (DestDirAbsPath c) p') = Got content →
  gitleaksDetector c = Got detector →
  detector content ≠ [] →
  let c1 := (defaultPreAddFunc p fileInfo c).2 in
  force c1 = false
  ∧ (defaultPreAddFunc p' fileInfo' c1).1
    = Returns (Some PolicyViolationError).
Proof.
  intros Ha Hforce Hsev Hplain Hreg Hread Hdet Hfound. cbv zeta.
  destruct (preAdd_answered _ _ _ _ Ha) as (evs & rs & _ & _ & _ & ->).
  simpl. split; [done|].
  match goal with
  | |- (defaultPreAddFunc _ _ ?c').1 = _ => set (c1 := c')
  end.
  assert (scansContent c1 fileInfo' = true) as Hon.
  { apply scansContent_enabled. subst c1. simpl. by rewrite Hsev. }
  assert (violatesPolicy c1 (detector content) = true) as Hviol.
  { unfold violatesPolicy. subst c1. simpl. rewrite Hforce. simpl.
    rewrite (bool_decide_eq_true_2 _ Hsev). simpl.
    apply bool_decide_eq_true_2.
    destruct (detector content); [done|simpl; lia]. }
  rewrite (preAdd_unfold _ _ _ _ _
             (scan_done p' fileInfo' c1 content detector Hon Hread Hdet)).
  by rewrite Hviol.
Qed.

Lemma scan_same_type p fileInfo fileInfo' c :
  (fs.Type_ (fs.Mode fileInfo) = 0 ↔ fs.Type_ (fs.Mode fileInfo') = 0) →
  defaultPreAddFunc p fileInfo c = defaultPreAddFunc p fileInfo' c.
Proof.
  intros Hsame.
  assert (scansContent c fileInfo = scansContent c fileInfo') as Heq.
  { unfold scansContent. f_equal. f_equal. by apply bool_decide_ext. }
  unfold defaultPreAddFunc, scanForSecrets, mbind, M_bind, get.
  by rewrite Heq.
Qed.

(** Of the file information the hook reads the type bits of the mode and
    nothing else: two infos whose modes differ in no type bit (other
    permissions, another name) are treated alike. *)
Theorem permission_bits_do_not_matter
    (c : Config) (p : RelPath) (fileInfo fileInfo' : fs.FileInfo) :
  Z.land (Z.lxor (fs.Mode fileInfo) (fs.Mode fileInfo')) fs.ModeType = 0 →
  defaultPreAddFunc p fileInfo c = defaultPreAddFunc p fileInfo' c.
Proof.
  intros Hbits. apply scan_same_type.
  assert (fs.Type_ (fs.Mode fileInfo) = fs.Type_ (fs.Mode fileInfo')) as ->;
    [|done].
  unfold fs.Type_. apply Z.lxor_eq. rewrite <-Hbits.
  apply Z.bits_inj'. intros n _.
  rewrite Z.lxor_spec, !Z.land_spec, Z.lxor_spec.
  by destruct (Z.testbit (fs.Mode fileInfo) n),
       (Z.testbit (fs.Mode fileInfo') n), (Z.testbit fs.ModeType n).
Qed.

(** What is not a regular file is never read: for a directory, a symlink, a
    device, a pipe or a socket (a mode with one of the type bits) the hook
    reads nothing, scans nothing and cannot end in the policy violation. *)
Theorem only_regular_files_are_read
    (c : Config) (p : RelPath) (fileInfo : fs.FileInfo) (flag : fs.FileMode) :
  flag ∈ [fs.ModeDir; fs.ModeSymlink; fs.ModeNamedPipe; fs.ModeSocket;
          fs.ModeDevice; fs.ModeCharDevice; fs.ModeIrregular] →
  Z.land (fs.Mode fileInfo) flag ≠ 0 →
  let r := defaultPreAddFunc p fileInfo c in
  reads (trace r.2) = reads (trace c)
  ∧ scans (trace r.2) = scans (trace c)
  ∧ r.1 ≠ Returns (Some PolicyViolationError).
Proof.
  intros Hflag Hset. cbv zeta.
  assert (Z.land fs.ModeType flag = flag) as Hmask.
  { repeat (apply elem_of_cons in Hflag as [->|Hflag]; [reflexivity|]).
    by apply elem_of_nil in Hflag. }
  assert (scansContent c fileInfo = false) as Hoff.
  { apply not_true_iff_false. rewrite scansContent_enabled.
    intros (_ & Hreg & _). apply Hset.
    rewrite <-Hmask, Z.land_assoc. unfold fs.Type_ in Hreg.
    by rewrite Hreg. }
  rewrite (preAdd_unfold _ _ _ _ _ (scan_off p fileInfo c Hoff)).
  destruct (confirm_reads_nothing p c) as [Hr Hs].
  split_and!; [done | done | apply confirm_not_violation].
Qed.

End PreAddMore.

(** ** More on the replace hook, and on both *)

Section ReplaceMore.
Import chezmoi cmd.
Context `{!chezmoi.Externals, !cmd.Externals}.

(** The hook, once it has put its prompt and got the reply [a]. *)
Lemma replace_answered p new old c a :
  answered (defaultReplaceFunc p new old) c a →
  ∃ newFile oldFile rs,
    asSourceStateFile new = Some newFile
    ∧ asSourceStateFile old = Some oldFile
    ∧ removedAttributes newFile oldFile ≠ []
    ∧ force c = false ∧ replies c = a :: rs
    ∧ defaultReplaceFunc p new old c
      = (choiceResult a,
         (if bool_decide (a = Got "all") then set_force true else id)
           (set_replies rs
              (set_trace (trace c ++ [replacePrompt p newFile oldFile]) c))).
Proof.
  intros Ha. unfold answered, consumes in Ha. simpl in Ha.
  assert (∀ o, defaultReplaceFunc p new old c = (o, c) → False) as Hsilent.
  { intros o Ho. rewrite Ho in Ha. simpl in Ha.
    apply (f_equal length) in Ha. simpl in Ha. lia. }
  destruct (force c) eqn:Hforce.
  { destruct (Hsilent _ (replace_forced p new old c Hforce)). }
  destruct (asSourceStateFile new) as [newFile|] eqn:Hnew.
  2:{ destruct (Hsilent _ (replace_not_files p new old c (or_introl Hnew))). }
  destruct (asSourceStateFile old) as [oldFile|] eqn:Hold.
  2:{ destruct (Hsilent _ (replace_not_files p new old c (or_intror Hold))). }
  destruct (decide (removedAttributes newFile oldFile = [])) as [Hnil|Hsome].
  { destruct (Hsilent _ (replace_nothing_removed p new old newFile oldFile c
                           Hnew Hold Hnil)). }
  destruct (replies c) as [|b rs] eqn:Hreply.
  { rewrite (replace_eof _ _ _ newFile oldFile) in Ha by done.
    simpl in Ha. rewrite Hreply in Ha. done. }
  rewrite (replace_reply _ _ _ newFile oldFile _ b rs) in Ha |- * by done.
  assert (b = a) as ->.
  { destruct (bool_decide (b = Got "all")); simpl in Ha; congruence. }
  by exists newFile, oldFile, rs.
Qed.

Lemma removedAttributes_elem newFile oldFile :
  ("encrypted" ∈ removedAttributes newFile oldFile
   ↔ Encrypted (Attr oldFile) = true ∧ Encrypted (Attr newFile) = false)
  ∧ ("private" ∈ removedAttributes newFile oldFile
     ↔ Private (Attr oldFile) = true ∧ Private (Attr newFile) = false)
  ∧ ("template" ∈ removedAttributes newFile oldFile
     ↔ Template (Attr oldFile) = true ∧ Template (Attr newFile) = false).
Proof.
  unfold removedAttributes.
  destruct (Encrypted (Attr newFile)), (Encrypted (Attr oldFile)),
    (Private (Attr newFile)), (Private (Attr oldFile)),
    (Template (Attr newFile)), (Template (Attr oldFile)); simpl;
    rewrite ?elem_of_cons, ?elem_of_nil; split_and!; split;
    try (intros [? ?]; congruence); try tauto;
    intros; repeat match goal with H : _ ∨ _ |- _ => destruct H end;
    done.
Qed.

(** When the replacement of a file entry by a file entry would remove
    attributes and [force] is not set, the hook asks, once, about exactly the
    attributes that would go: those set on the old entry and not on the new
    one, named in the order encrypted, private, template. *)
Theorem replace_prompt_names_removed_attributes
    (c : Config) (p : RelPath) (newFile oldFile : EntryData) :
  force c = false →
  removedAttributes newFile oldFile ≠ [] →
  let r := defaultReplaceFunc p (SourceStateFile newFile)
             (SourceStateFile oldFile) c in
  let removed := removedAttributes newFile oldFile in
  prompts (trace r.2)
  = prompts (trace c)
    ++ ["adding " +:+ p +:+ " would remove "
        +:+ englishListWithNoun removed "attribute" "" +:+ ", continue"]
  ∧ removed `sublist_of` ["encrypted"; "private"; "template"]
  ∧ ("encrypted" ∈ removed
     ↔ Encrypted (Attr oldFile) = true ∧ Encrypted (Attr newFile) = false)
  ∧ ("private" ∈ removed
     ↔ Private (Attr oldFile) = true ∧ Private (Attr newFile) = false)
  ∧ ("template" ∈ removed
     ↔ Template (Attr oldFile) = true ∧ Template (Attr newFile) = false).
Proof.
  intros Hforce Hsome. cbv zeta.
  destruct (removedAttributes_elem newFile oldFile) as (He & Hp & Ht).
  split_and!; try done.
  - destruct (replies c) as [|a rs] eqn:Hreply.
    + rewrite (replace_eof _ _ _ newFile oldFile) by done. simpl.
      by rewrite prompts_app.
    + rewrite (replace_reply _ _ _ newFile oldFile _ a rs) by done.
      destruct (bool_decide (a = Got "all")); simpl; by rewrite prompts_app.
  - unfold removedAttributes.
    repeat case_match; simpl; repeat (constructor; try done).
Qed.

(** The reply [yes] lets this one replacement through and sets nothing:
    the hook returns [nil], [force] stays off and the [add] options stay as
    they were, so the same replacement put again is asked about again. *)
Theorem replace_yes_keeps_asking
    (c : Config) (p : RelPath) (new old : SourceStateEntry) :
  answered (defaultReplaceFunc p new old) c (Got "yes") →
  let r := defaultReplaceFunc p new old c in
  r.1 = Returns None
  ∧ force r.2 = false ∧ Add r.2 = Add c
  ∧ ∃ text,
      prompts (trace r.2) = prompts (trace c) ++ [text]
      ∧ prompts (trace (defaultReplaceFunc p new old r.2).2)
        = prompts (trace c) ++ [text; text].
Proof.
  intros Ha. cbv zeta.
  destruct (replace_answered _ _ _ _ _ Ha)
    as (newFile & oldFile & rs & Hnew & Hold & Hsome & Hforce & _ & ->).
  simpl. split_and!; try done.
  eexists. split; [by rewrite prompts_app|].
  match goal with
  | |- context [defaultReplaceFunc _ _ _ ?c'] => set (c1 := c')
  end.
  assert (force c1 = false) as Hforce1 by done.
  destruct (replies c1) as [|a rs'] eqn:Hreply.
  - rewrite (replace_eof _ _ _ newFile oldFile c1) by done. simpl.
    by rewrite !prompts_app, <-app_assoc.
  - rewrite (replace_reply _ _ _ newFile oldFile c1 a rs') by done.
    destruct (bool_decide (a = Got "all")); simpl;
      by rewrite !prompts_app, <-app_assoc.
Qed.

(** Whatever the replace hook does, it lets the configuration be, but for
    [force], which it sets, and only on the reply [all]: the [add] options
    and all else stay as they were.  It reads no file and writes nothing to
    the error stream; the trace only grows, and at most one reply is
    taken. *)
Theorem replace_changes_only_force
    (c : Config) (p : RelPath) (new old : SourceStateEntry) :
  let r := defaultReplaceFunc p new old c in
  ∃ evs l,
    (length l ≤ 1)%nat
    ∧ replies c = l ++ replies r.2
    ∧ r.2 = (if bool_decide (l = [Got "all"]) then set_force true else id)
              (set_replies (replies r.2) (set_trace (trace c ++ evs) c))
    ∧ reads evs = [] ∧ scans evs = [] ∧ messages evs = [].
Proof.
  cbv zeta.
  assert (∀ o : outcome (option error),
               ∃ evs l,
                 (length l ≤ 1)%nat
                 ∧ replies c = l ++ replies (o, c).2
                 ∧ (o, c).2
                   = (if bool_decide (l = [Got "all"])
                      then set_force true else id)
                       (set_replies (replies (o, c).2)
                          (set_trace (trace c ++ evs) c))
                 ∧ reads evs = [] ∧ scans evs = [] ∧ messages evs = [])
    as Hsilent.
  { intros o. exists [], []. simpl. split_and!; try done; [lia|].
    rewrite app_nil_r. by destruct c. }
  destruct (force c) eqn:Hforce.
  { rewrite (replace_forced p new old c Hforce). apply Hsilent. }
  destruct (asSourceStateFile new) as [newFile|] eqn:Hnew.
  2:{ rewrite (replace_not_files p new old c (or_introl Hnew)).
      apply Hsilent. }
  destruct (asSourceStateFile old) as [oldFile|] eqn:Hold.
  2:{ rewrite (replace_not_files p new old c (or_intror Hold)).
      apply Hsilent. }
  destruct (decide (removedAttributes newFile oldFile = [])) as [Hnil|Hsome].
  { rewrite (replace_nothing_removed p new old newFile oldFile c
               Hnew Hold Hnil).
    apply Hsilent. }
  clear Hsilent.
  destruct (replies c) as [|a rs] eqn:Hreply.
  { rewrite (replace_eof _ _ _ newFile oldFile) by done.
    exists [replacePrompt p newFile oldFile], []. simpl.
    split_and!; try done; try lia;
      destruct c; simpl in *; by subst. }
  rewrite (replace_reply _ _ _ newFile oldFile _ a rs) by done.
  exists [replacePrompt p newFile oldFile], [a].
  assert (bool_decide ([a] = [Got "all"]) = bool_decide (a = Got "all")) as ->.
  { apply bool_decide_ext. split; [by intros [= ->]|by intros ->]. }
  destruct (bool_decide (a = Got "all")); simpl;
    (split_and!; try done; lia).
Qed.


(** When the prompt itself fails, either hook returns that error as it is,
    and no flag moves. *)
Theorem prompt_failure_is_returned (msg : string) :
  (∀ c p fileInfo,
     answered (defaultPreAddFunc p fileInfo) c (Failed msg) →
     let r := defaultPreAddFunc p fileInfo c in
     r.1 = Returns (Some (IOError msg))
     ∧ Add r.2 = Add c ∧ force r.2 = force c)
  ∧ (∀ c p new old,
       answered (defaultReplaceFunc p new old) c (Failed msg) →
       let r := defaultReplaceFunc p new old c in
       r.1 = Returns (Some (IOError msg))
       ∧ Add r.2 = Add c ∧ force r.2 = force c).
Proof.
  split.
  - intros c p fileInfo Ha. cbv zeta.
    by destruct (preAdd_answered _ _ _ _ Ha) as (evs & rs & _ & _ & _ & ->).
  - intros c p new old Ha. cbv zeta.
    by destruct (replace_answered _ _ _ _ _ Ha)
      as (newFile & oldFile & rs & _ & _ & _ & _ & _ & ->).
Qed.

(** [runAddCmd] gives up before anything is added when the destination paths
    cannot be listed or the persistent state file cannot be had: it returns
    that error, the source state is as it was, and no hook has run (nothing
    asked, read or written). *)
Theorem runAddCmd_fails_before_adding
    (args : list string) (s : SourceState) (c : Config) (msg : string) :
  destAbsPathInfos c s args
    (bool_decide (Mode c = ModeSymlink) || follow (Add c))
    (recursive (Add c)) = Failed msg
  ∨ ((∃ infos,
        destAbsPathInfos c s args
          (bool_decide (Mode c = ModeSymlink) || follow (Add c))
          (recursive (Add c)) = Got infos)
     ∧ persistentStateFile c = Failed msg) →
  runAddCmd args s c = (Returns (Some (IOError msg), s), c).
Proof.
  intros Hfail. unfold runAddCmd, mbind, M_bind, get. simpl.
  destruct Hfail as [->|[[infos ->] ->]]; done.
Qed.

End ReplaceMore.

(** ** The further properties at work on the sample run *)

Section MoreWitnesses.
Import chezmoi cmd.

Lemma Keys_visits_each_entry_witness : NoDup (chezmoimaps.Keys Sample.m1).
Proof.
  apply (proj2 (proj2 (proj2 (Keys_visits_each_entry Sample.m1)))).
  apply (bool_decide_unpack _). vm_compute. exact I.
Defined.

Lemma SortedKeys_strictly_increasing_witness :
  NoDup (chezmoimaps.SortedKeys String.le Sample.m1)
  ∧ StronglySorted (strict String.le)
      (chezmoimaps.SortedKeys String.le Sample.m1).
Proof.
  apply (proj2 (SortedKeys_strictly_increasing String.le Sample.m1)).
  apply (bool_decide_unpack _). vm_compute. exact I.
Defined.

Lemma SortedKeys_ends_witness :
  has_key Sample.m1 "a" ∧ ∀ k, has_key Sample.m1 k → String.le "a" k.
Proof.
  apply (proj1 (SortedKeys_ends String.le Sample.m1) "a"). reflexivity.
Defined.

Lemma SortedKeys_add_entry_witness :
  chezmoimaps.SortedKeys String.le ([("c", 1)] ++ ("b", 2) :: [("a", 3)])
  = ["a"; "b"; "c"].
Proof.
  rewrite (SortedKeys_add_entry String.le [("c", 1)] [("a", 3)] "b" 2).
  reflexivity.
Defined.

Lemma SortedKeys_delete_key_witness :
  chezmoimaps.SortedKeys String.le
    (base.filter (λ kv, kv.1 ≠ "b") Sample.m1)
  = ["a"; "c"].
Proof.
  rewrite (SortedKeys_delete_key String.le Sample.m1 "b"). reflexivity.
Defined.

Lemma SortedKeys_of_sorted_walk_witness :
  chezmoimaps.SortedKeys String.le MoreSamples.walked
  = chezmoimaps.Keys MoreSamples.walked.
Proof.
  apply (proj1 (SortedKeys_of_sorted_walk String.le MoreSamples.walked)).
  apply (bool_decide_unpack _). vm_compute. exact I.
Defined.

Lemma SortedKeys_union_witness :
  chezmoimaps.SortedKeys String.le (Sample.m1 ++ [("aa", 7)])
  = ["a"; "aa"; "b"; "c"].
Proof.
  rewrite (SortedKeys_union String.le Sample.m1 [("aa", 7)]). reflexivity.
Defined.

Lemma read_failure_is_returned_witness :
  (@defaultPreAddFunc Sample.paths "id_rsa" (Sample.regular "id_rsa")
     MoreSamples.unreadable).1
  = Returns (Some (IOError "permission denied")).
Proof.
  refine (f_equal fst
            (proj1 (@read_failure_is_returned Sample.paths
                      MoreSamples.unreadable "id_rsa"
                      (Sample.regular "id_rsa") "permission denied"
                      _ _ _ _)));
    [discriminate | reflexivity | reflexivity | reflexivity].
Defined.

Lemma detector_failure_is_returned_witness :
  (@defaultPreAddFunc Sample.paths "id_rsa" (Sample.regular "id_rsa")
     MoreSamples.noDetector).1
  = Returns (Some (IOError "bad detector configuration")).
Proof.
  refine (f_equal fst
            (proj1 (@detector_failure_is_returned Sample.paths
                      MoreSamples.noDetector "id_rsa"
                      (Sample.regular "id_rsa") "KEY"
                      "bad detector configuration" _ _ _ _ _)));
    [discriminate | reflexivity | reflexivity | reflexivity | reflexivity].
Defined.

Lemma findings_reported_once_in_order_witness :
  messages (trace (@defaultPreAddFunc Sample.paths "id_rsa"
                     (Sample.regular "id_rsa")
                     (Sample.asking [Got "yes"])).2)
  = ["/home/id_rsa:1: private key" +:+ nl].
Proof.
  refine (proj1 (@findings_reported_once_in_order Sample.paths
                   (Sample.asking [Got "yes"]) "id_rsa"
                   (Sample.regular "id_rsa") "KEY" Sample.detector
                   _ _ _ _ _));
    [discriminate | reflexivity | reflexivity | reflexivity | reflexivity].
Defined.

Lemma policy_abort_only_for_flagged_content_witness :
  force Sample.strict = false
  ∧ Secrets (Add Sample.strict) = severityError.
Proof.
  destruct (@policy_abort_only_for_flagged_content Sample.paths
              Sample.strict "id_rsa" (Sample.regular "id_rsa"))
    as (Hforce & Hsev & _); [vm_compute; reflexivity|].
  exact (conj Hforce Hsev).
Defined.

Lemma nothing_to_do_is_a_noop_witness :
  @defaultPreAddFunc Sample.paths "id_rsa" (Sample.regular "id_rsa")
    Sample.encrypting
  = (Returns None, Sample.encrypting).
Proof.
  apply (@nothing_to_do_is_a_noop Sample.paths); [reflexivity|].
  right. right. reflexivity.
Defined.

Lemma add_yes_keeps_asking_witness :
  prompt (Add (@defaultPreAddFunc Sample.paths "notes"
                 (Sample.regular "notes")
                 (Sample.asking [Got "yes"; Got "no"])).2)
  = true.
Proof.
  apply (@add_yes_keeps_asking Sample.paths
           (Sample.asking [Got "yes"; Got "no"]) "notes"
           (Sample.regular "notes")).
  vm_compute. reflexivity.
Defined.

Lemma preAdd_asks_once_at_the_end_witness :
  prompts (trace (@defaultPreAddFunc Sample.paths "notes"
                    (Sample.regular "notes")
                    (Sample.asking [Got "yes"])).2)
  = ["add /src/notes"].
Proof.
  apply (proj1 (@preAdd_asks_once_at_the_end Sample.paths
                  (Sample.asking [Got "yes"]) "notes"
                  (Sample.regular "notes"))).
  split; [reflexivity | vm_compute; reflexivity].
Defined.

Lemma add_all_keeps_the_policy_witness :
  (@defaultPreAddFunc Sample.paths "id_rsa" (Sample.regular "id_rsa")
     (@defaultPreAddFunc Sample.paths "notes" (Sample.regular "notes")
        (MoreSamples.strictAsking [Got "all"])).2).1
  = Returns (Some PolicyViolationError).
Proof.
  apply (@add_all_keeps_the_policy Sample.paths
           (MoreSamples.strictAsking [Got "all"]) "notes"
           (Sample.regular "notes") "id_rsa" (Sample.regular "id_rsa")
           "KEY" Sample.detector);
    [vm_compute; reflexivity | reflexivity | reflexivity | reflexivity
    | reflexivity | reflexivity | reflexivity | discriminate].
Defined.

Lemma permission_bits_do_not_matter_witness :
  @defaultPreAddFunc Sample.paths "id_rsa" (Sample.regular "id_rsa")
    Sample.strict
  = @defaultPreAddFunc Sample.paths "id_rsa" (MoreSamples.secretive "key")
      Sample.strict.
Proof.
  apply (@permission_bits_do_not_matter Sample.paths). reflexivity.
Defined.

Lemma only_regular_files_are_read_witness :
  reads (trace (@defaultPreAddFunc Sample.paths "dir" MoreSamples.directory
                  Sample.strict).2)
  = [].
Proof.
  apply (@only_regular_files_are_read Sample.paths Sample.strict "dir"
           MoreSamples.directory fs.ModeDir).
  - apply list_elem_of_here.
  - vm_compute. discriminate.
Defined.

Lemma replace_prompt_names_removed_attributes_witness :
  removedAttributes MoreSamples.plainData MoreSamples.guardedData
  `sublist_of` ["encrypted"; "private"; "template"]
  ∧ ("private" ∈ removedAttributes MoreSamples.plainData
                   MoreSamples.guardedData
     ↔ Private (Attr MoreSamples.guardedData) = true
       ∧ Private (Attr MoreSamples.plainData) = false).
Proof.
  destruct (@replace_prompt_names_removed_attributes Sample.helpers
              (Sample.asking []) "id_rsa" MoreSamples.plainData
              MoreSamples.guardedData)
    as (_ & Hsub & _ & Hprivate & _);
    [reflexivity | vm_compute; discriminate |].
  exact (conj Hsub Hprivate).
Defined.

Lemma replace_yes_keeps_asking_witness :
  force (@defaultReplaceFunc Sample.helpers "id_rsa"
           (SourceStateFile MoreSamples.plainData)
           (SourceStateFile MoreSamples.guardedData)
           (Sample.asking [Got "yes"])).2
  = false.
Proof.
  apply (@replace_yes_keeps_asking Sample.helpers
           (Sample.asking [Got "yes"]) "id_rsa"
           (SourceStateFile MoreSamples.plainData)
           (SourceStateFile MoreSamples.guardedData)).
  vm_compute. reflexivity.
Defined.


Lemma prompt_failure_is_returned_witness :
  (@defaultReplaceFunc Sample.helpers "id_rsa"
     (SourceStateFile MoreSamples.plainData)
     (SourceStateFile MoreSamples.guardedData)
     (Sample.asking [Failed "terminal closed"])).1
  = Returns (Some (IOError "terminal closed")).
Proof.
  apply (proj2 (@prompt_failure_is_returned Sample.paths Sample.helpers
                  "terminal closed")).
  vm_compute. reflexivity.
Defined.

Lemma runAddCmd_fails_before_adding_witness :
  @runAddCmd Sample.paths MoreSamples.noStateFile ["/home/id_rsa"]
    Sample.source (Sample.asking [Got "yes"])
  = (Returns (Some (IOError "no state file"), Sample.source),
     Sample.asking [Got "yes"]).
Proof.
  apply (@runAddCmd_fails_before_adding Sample.paths MoreSamples.noStateFile).
  right. split; [by eexists | reflexivity].
Defined.

End MoreWitnesses.
